(** * Personal Finance Tracker: a shallow embedding of [main.py]

    The development follows the layout of the program: the two decorators
    ([validate_amount], [log_transaction]), the four classes ([Transaction],
    [SavingsGoal], [Budget], [User]) with their [to_dict]/[from_dict] pairs,
    the registry ([FinanceTracker]) and the pieces of the menu handlers that
    mutate a user (delete by id, delete category), followed by the rest of
    the registry (loading, sessions) and of the menu handlers, each as a
    function of the text typed in.

    Modelling conventions.
    - A Python [float] is a [pyfloat]: a rational, or one of the three
      non-finite values that [float()] can return.  [float()] of a string or
      of an [int], the product and the quotient give the binary64 number
      nearest to the exact result ([round64]), as the machine does.  A sum
      or a difference is exact: its rounding and its overflow are not
      modelled.  Comparisons follow Python: every ordered comparison with
      NaN is false.
    - A Python [int] is a [Z]; a [str] is a [string] of ASCII characters.
    - Exceptions are the [Raise] outcome of the [result] type.
    - Mutable objects are passed explicitly: an operation takes the user (and
      the audit log, the registry) and returns the new one.
    - Text written by [print] is not modelled.  The text of a budget
      notification (which formats floats with two decimals) is kept as a
      structured value. *)

From Stdlib Require Import ZArith QArith List String Ascii Bool Lia FinFun.
Import ListNotations.

Local Open Scope string_scope.
Local Open Scope Z_scope.
Local Open Scope list_scope.

(** ** Python floats *)

Module PyFloat.

Inductive pyfloat : Type :=
| Fin (q : Q)
| PosInf
| NegInf
| NaN.

Definition zero : pyfloat := Fin 0.

Definition fneg (a : pyfloat) : pyfloat :=
  match a with
  | Fin q => Fin (- q)
  | PosInf => NegInf
  | NegInf => PosInf
  | NaN => NaN
  end.

Definition fadd (a b : pyfloat) : pyfloat :=
  match a, b with
  | NaN, _ | _, NaN => NaN
  | Fin x, Fin y => Fin (x + y)
  | PosInf, NegInf | NegInf, PosInf => NaN
  | PosInf, _ | _, PosInf => PosInf
  | NegInf, _ | _, NegInf => NegInf
  end.

Definition fsub (a b : pyfloat) : pyfloat := fadd a (fneg b).

(** Sign of a rational: -1, 0 or 1. *)
Definition qsgn (q : Q) : Z := Z.sgn (Qnum q).

Definition inf_of_sign (s : Z) : pyfloat :=
  match s with
  | Z0 => NaN
  | Zpos _ => PosInf
  | Zneg _ => NegInf
  end.

Definition fsgn (a : pyfloat) : Z :=
  match a with
  | Fin q => qsgn q
  | PosInf => 1
  | NegInf => -1
  | NaN => 0
  end.

(** *** Rounding to binary64

    A binary64 number is [m * 2^p] for integers [m] and [p] with
    [|m| < 2^53] and [-1074 <= p <= 971].  [round64 q] is the one nearest to
    [q], the one with an even [m] when two are as near, and an infinity
    when [q] is past the largest of them by half a step or more. *)

(** [floor (log2 (n / d))]. *)
Definition log2_floor (n d : positive) : Z :=
  let e := Z.log2 (Zpos n) - Z.log2 (Zpos d) in
  let below :=
    if 0 <=? e then Zpos n <? Zpos d * 2 ^ e
    else Zpos n * 2 ^ (- e) <? Zpos d in
  if below then e - 1 else e.

(** [n / d] rounded to the nearest integer, to the even one on a tie. *)
Definition div_nearest_even (n d : Z) : Z :=
  let q := n / d in
  match 2 * (n mod d) ?= d with
  | Lt => q
  | Eq => if Z.even q then q else q + 1
  | Gt => q + 1
  end.

Definition round64_pos (n d : positive) : pyfloat :=
  let e := log2_floor n d in
  let p := Z.max (e - 52) (-1074) in
  let m :=
    if 0 <=? p then div_nearest_even (Zpos n) (Zpos d * 2 ^ p)
    else div_nearest_even (Zpos n * 2 ^ (- p)) (Zpos d) in
  if 2 ^ 1024 <=? m * 2 ^ p then PosInf
  else if 0 <=? p then Fin (inject_Z (m * 2 ^ p))
  else Fin (Qred (Qmake m (Z.to_pos (2 ^ (- p))))).

Definition round64 (q : Q) : pyfloat :=
  let q' := Qred q in
  match Qnum q' with
  | Z0 => Fin 0
  | Zpos n => round64_pos n (Qden q')
  | Zneg n => fneg (round64_pos n (Qden q'))
  end.

(** [a * b] of Python. *)
Definition fmul (a b : pyfloat) : pyfloat :=
  match a, b with
  | NaN, _ | _, NaN => NaN
  | Fin x, Fin y => round64 (x * y)
  | _, _ => inf_of_sign (fsgn a * fsgn b)
  end.

(** [a <= b] of Python. *)
Definition fle (a b : pyfloat) : bool :=
  match a, b with
  | NaN, _ | _, NaN => false
  | Fin x, Fin y => Qle_bool x y
  | NegInf, _ => true
  | _, PosInf => true
  | _, _ => false
  end.

(** [a < b] of Python. *)
Definition flt (a b : pyfloat) : bool :=
  match a, b with
  | NaN, _ | _, NaN => false
  | Fin x, Fin y => negb (Qle_bool y x)
  | PosInf, _ => false
  | _, NegInf => false
  | _, _ => true
  end.

(** [a >= b] and [a > b] of Python. *)
Definition fge (a b : pyfloat) : bool := fle b a.
Definition fgt (a b : pyfloat) : bool := flt b a.

(** [a == b] of Python. *)
Definition feq (a b : pyfloat) : bool :=
  match a, b with
  | Fin x, Fin y => Qeq_bool x y
  | PosInf, PosInf | NegInf, NegInf => true
  | _, _ => false
  end.

Definition is_finite (a : pyfloat) : bool :=
  match a with Fin _ => true | _ => false end.


(** The binary64 number nearest to the [int] [n]; an infinity stands for
    an [n] that is too large to have one. *)
Definition of_int (z : Z) : pyfloat := round64 (inject_Z z).

(** [a / b] of Python; [None] is [ZeroDivisionError], raised whenever the
    divisor is zero. *)
Definition fdiv (a b : pyfloat) : option pyfloat :=
  match b with
  | Fin y =>
      if Qeq_bool y 0 then None
      else
        match a with
        | Fin x => Some (round64 (x / y))
        | NaN => Some NaN
        | PosInf | NegInf => Some (inf_of_sign (fsgn a * qsgn y))
        end
  | PosInf | NegInf =>
      match a with
      | Fin _ => Some (Fin 0)
      | _ => Some NaN
      end
  | NaN => Some NaN
  end.

End PyFloat.
Export PyFloat.

(** ** Outcomes of fallible code *)

Inductive exn : Type :=
| ValueError
| KeyError (key : string)
| IndexError
| TypeError
| OverflowError.

Inductive result (A : Type) : Type :=
| Ok (a : A)
| Raise (e : exn).
Arguments Ok {A} a.
Arguments Raise {A} e.

Definition bind {A B : Type} (r : result A) (k : A -> result B) : result B :=
  match r with
  | Ok a => k a
  | Raise e => Raise e
  end.

Notation "x <- r ;; k" := (bind r (fun x => k))
  (at level 61, r at next level, right associativity).

Fixpoint mapM {A B : Type} (f : A -> result B) (l : list A) : result (list B) :=
  match l with
  | [] => Ok []
  | a :: l' => b <- f a ;; bs <- mapM f l' ;; Ok (b :: bs)
  end.

(** ** [float(s)] for a string [s]

    The grammar accepted by CPython: surrounding whitespace is stripped;
    underscores may separate digits; then an optional sign followed by
    [inf], [infinity] or [nan] in any letter case, or by a decimal number
    with an optional fraction and an optional exponent.  Anything else is a
    [ValueError].  The value of a decimal number is the binary64 number
    nearest to it: zero for [1e-400], an infinity for [1e400]. *)

Module FloatParse.

Definition code (c : ascii) : nat := nat_of_ascii c.

(** The whitespace that [float()] and [int()] strip from a string of
    ASCII characters: tab, line feed, vertical tab, form feed, carriage
    return and space. *)
Definition is_space (c : ascii) : bool :=
  let n := code c in
  ((9 <=? n) && (n <=? 13) || (n =? 32))%nat.

Definition is_digit (c : ascii) : bool :=
  let n := code c in ((48 <=? n) && (n <=? 57))%nat.

Definition digit_val (c : ascii) : Z := Z.of_nat (code c) - 48.

Definition is_char (c d : ascii) : bool := Ascii.eqb c d.

Definition lower (c : ascii) : ascii :=
  let n := code c in
  if ((65 <=? n) && (n <=? 90))%nat then ascii_of_nat (n + 32) else c.

Fixpoint lstrip (s : list ascii) : list ascii :=
  match s with
  | c :: s' => if is_space c then lstrip s' else s
  | [] => []
  end.

Definition strip (s : list ascii) : list ascii :=
  rev (lstrip (rev (lstrip s))).

(** An underscore must stand between two digits; the accepted ones are
    removed before the number is read. *)
Fixpoint drop_underscores (prev : option ascii) (s : list ascii)
  : option (list ascii) :=
  match s with
  | [] =>
      match prev with
      | Some p => if is_char p "_" then None else Some []
      | None => Some []
      end
  | c :: s' =>
      if is_char c "_" then
        match prev with
        | Some p => if is_digit p then drop_underscores (Some c) s' else None
        | None => None
        end
      else
        let bad :=
          match prev with
          | Some p => is_char p "_" && negb (is_digit c)
          | None => false
          end in
        if bad then None
        else option_map (cons c) (drop_underscores (Some c) s')
  end.

Fixpoint take_digits (s : list ascii) (acc : Z) (n : nat)
  : Z * nat * list ascii :=
  match s with
  | c :: s' =>
      if is_digit c then take_digits s' (acc * 10 + digit_val c) (S n)
      else (acc, n, s)
  | [] => (acc, n, [])
  end.

(** The value [m * 10^e]. *)
Definition scale10 (m e : Z) : Q :=
  if 0 <=? e then inject_Z (m * 10 ^ e)
  else Qmake m (Z.to_pos (10 ^ (- e))).

Definition take_sign (s : list ascii) : Z * list ascii :=
  match s with
  | c :: s' =>
      if is_char c "-" then (-1, s')
      else if is_char c "+" then (1, s')
      else (1, s)
  | [] => (1, [])
  end.

(** An unsigned decimal number, read to the end of [s]. *)
Definition decimal (s : list ascii) : option Q :=
  let '(ip, ni, r1) := take_digits s 0 0 in
  let '(m, nf, r2) :=
    match r1 with
    | c :: r => if is_char c "." then take_digits r ip 0 else (ip, 0%nat, r1)
    | [] => (ip, 0%nat, r1)
    end in
  if (ni + nf =? 0)%nat then None
  else
    match r2 with
    | [] => Some (scale10 m (- Z.of_nat nf))
    | c :: r =>
        if is_char (lower c) "e" then
          let '(sg, r') := take_sign r in
          let '(ev, ne, r3) := take_digits r' 0 0 in
          match ne, r3 with
          | S _, [] => Some (scale10 m (sg * ev - Z.of_nat nf))
          | _, _ => None
          end
        else None
    end.

Definition special (s : list ascii) : option pyfloat :=
  let w := string_of_list_ascii (map lower s) in
  if String.eqb w "inf" || String.eqb w "infinity" then Some PosInf
  else if String.eqb w "nan" then Some NaN
  else None.

Definition float_of_string (s : string) : result pyfloat :=
  match drop_underscores None (strip (list_ascii_of_string s)) with
  | None => Raise ValueError
  | Some t =>
      let '(sg, body) := take_sign t in
      match decimal body with
      | Some q => Ok (round64 (if sg <? 0 then - q else q)%Q)
      | None =>
          match special body with
          | Some v => Ok (if sg <? 0 then fneg v else v)
          | None => Raise ValueError
          end
      end
  end.

(** [int(s)] for a string [s]: surrounding whitespace is stripped,
    underscores may separate digits, and what is left must be an optional
    sign followed by at least one decimal digit. *)
Definition int_of_string (s : string) : result Z :=
  match drop_underscores None (strip (list_ascii_of_string s)) with
  | None => Raise ValueError
  | Some t =>
      let '(sg, body) := take_sign t in
      match take_digits body 0 0 with
      | (v, S _, []) => Ok (sg * v)
      | _ => Raise ValueError
      end
  end.

(** [s.lower()]. *)
Definition lower_string (s : string) : string :=
  string_of_list_ascii (map lower (list_ascii_of_string s)).

End FloatParse.
Export FloatParse.

(** ** Python values of the persisted document *)

#[local] Set Warnings "-register-all".

Inductive pyval : Type :=
| VInt (z : Z)
| VFloat (f : pyfloat)
| VStr (s : string)
| VList (l : list pyval)
| VDict (d : list (string * pyval)).

(** [float(v)].  An [int] that is too large for a float is an
    [OverflowError]. *)
Definition py_float (v : pyval) : result pyfloat :=
  match v with
  | VInt z =>
      if is_finite (of_int z) then Ok (of_int z) else Raise OverflowError
  | VFloat f => Ok f
  | VStr s => float_of_string s
  | VList _ | VDict _ => Raise TypeError
  end.

Fixpoint assoc {A : Type} (k : string) (d : list (string * A)) : option A :=
  match d with
  | [] => None
  | (k', v) :: d' => if String.eqb k k' then Some v else assoc k d'
  end.

(** [data[key]]. *)
Definition getitem (data : pyval) (key : string) : result pyval :=
  match data with
  | VDict d =>
      match assoc key d with
      | Some v => Ok v
      | None => Raise (KeyError key)
      end
  | _ => Raise TypeError
  end.

(** [data.get(key, default)]. *)
Definition get (data : pyval) (key : string) (default : pyval) : result pyval :=
  match data with
  | VDict d =>
      match assoc key d with
      | Some v => Ok v
      | None => Ok default
      end
  | _ => Raise TypeError
  end.

(** [key in data]. *)
Definition contains (data : pyval) (key : string) : result bool :=
  match data with
  | VDict d =>
      match assoc key d with
      | Some _ => Ok true
      | None => Ok false
      end
  | _ => Raise TypeError
  end.

(** The records below give every field the type that the program stores in
    it.  Python itself does not check these types when it rebuilds an object
    from a document; a document that holds a value of another type in a
    field is outside this embedding, and reading it stops with
    [TypeError]. *)
Definition as_int (v : pyval) : result Z :=
  match v with VInt z => Ok z | _ => Raise TypeError end.

Definition as_str (v : pyval) : result string :=
  match v with VStr s => Ok s | _ => Raise TypeError end.

Definition as_list (v : pyval) : result (list pyval) :=
  match v with VList l => Ok l | _ => Raise TypeError end.

(** [x or []] for an optional list argument whose default is [None]. *)
Definition or_empty {A : Type} (x : option (list A)) : list A :=
  match x with
  | Some (a :: l) => a :: l
  | Some [] | None => []
  end.

(** ** Decorators

    A decorated method is called as [wrapper(self, date, amount, category,
    transaction_type, description)]: the only call in the program passes
    every argument by position, and every argument but [self] is a string
    read from the terminal.  Inside a wrapper, [args[0]] is [self] and
    [args[1]] to [args[5]] are the five strings. *)

Record call_args : Type := mk_args {
  arg_date : string;
  arg_amount : string;
  arg_category : string;
  arg_transaction_type : string;
  arg_description : string
}.

(** [args[i]] for [1 <= i <= 5].  [args[0]] is [self]; no wrapper reads
    it, and it is left out here like the indices past the tuple. *)
Definition positional (args : call_args) (i : nat) : result string :=
  match i with
  | 1%nat => Ok (arg_date args)
  | 2%nat => Ok (arg_amount args)
  | 3%nat => Ok (arg_category args)
  | 4%nat => Ok (arg_transaction_type args)
  | 5%nat => Ok (arg_description args)
  | _ => Raise IndexError
  end.

(** A method that returns an object or [None], and may change [self]. *)
Definition method (S R : Type) : Type :=
  S -> call_args -> result (option R * S).

(** [validate_amount]: [kwargs] is empty, so the value checked is
    [args[1]]. *)
Definition validate_amount {S R : Type} (func : method S R) : method S R :=
  fun self args =>
    amount <- positional args 1 ;;
    match float_of_string amount with
    | Ok amount =>
        if fle amount zero then Ok (None, self)
        else func self args
    | Raise ValueError => Ok (None, self)
    | Raise e => Raise e
    end.

(** The audit log [transaction_log.txt], as the list of its lines. *)
Definition audit_log : Type := list string.

Definition log_line (timestamp func_name a1 a2 a3 : string) : string :=
  (timestamp ++ " - " ++ func_name ++ ": " ++ a1 ++ " $" ++ a2 ++ " - " ++ a3)
    %string.

(** [log_transaction]: [func_name] is [func.__name__], which [wraps] keeps
    equal to the name of the decorated method; [timestamp] is the reading of
    the clock, already formatted as [%Y-%m-%d %H:%M:%S]. *)
Definition log_transaction {S R : Type} (func_name : string)
    (func : method S R) (timestamp : string) (log : audit_log)
  : S -> call_args -> result (option R * S * audit_log) :=
  fun self args =>
    r <- func self args ;;
    match fst r with
    | Some _ =>
        a1 <- positional args 1 ;;
        a2 <- positional args 2 ;;
        a3 <- positional args 3 ;;
        Ok (r, log ++ [log_line timestamp func_name a1 a2 a3])
    | None => Ok (r, log)
    end.

(** ** class Transaction *)

Module Transaction.

Record t : Type := mk {
  transaction_id : Z;
  date : string;
  amount : pyfloat;
  category : string;
  type : string;
  description : string
}.

(** [__init__]: the amount goes through [float()]. *)
Definition init (transaction_id : Z) (date : string) (amount : pyval)
    (category transaction_type description : string) : result t :=
  a <- py_float amount ;;
  Ok (mk transaction_id date a category transaction_type description).

Definition to_dict (self : t) : pyval :=
  VDict [ ("id", VInt (transaction_id self));
          ("date", VStr (date self));
          ("amount", VFloat (amount self));
          ("category", VStr (category self));
          ("type", VStr (type self));
          ("description", VStr (description self)) ].

Definition from_dict (data : pyval) : result t :=
  i <- getitem data "id" ;;
  d <- getitem data "date" ;;
  a <- getitem data "amount" ;;
  c <- getitem data "category" ;;
  ty <- getitem data "type" ;;
  de <- get data "description" (VStr "") ;;
  i <- as_int i ;; d <- as_str d ;; c <- as_str c ;;
  ty <- as_str ty ;; de <- as_str de ;;
  init i d a c ty de.

Definition set_category (self : t) (c : string) : t :=
  mk (transaction_id self) (date self) (amount self) c (type self)
     (description self).

End Transaction.

(** ** class SavingsGoal *)

Module SavingsGoal.

Record t : Type := mk {
  goal_id : Z;
  name : string;
  target_amount : pyfloat;
  current_amount : pyfloat
}.

(** [__init__(goal_id, name, target_amount, current_amount=0.0)]. *)
Definition init (goal_id : Z) (name : string)
    (target_amount current_amount : pyval) : result t :=
  ta <- py_float target_amount ;;
  ca <- py_float current_amount ;;
  Ok (mk goal_id name ta ca).

Definition default_current_amount : pyval := VFloat (Fin 0).

(** [self.current_amount += float(amount)]. *)
Definition add_funds (self : t) (amount : pyval) : result t :=
  a <- py_float amount ;;
  Ok (mk (goal_id self) (name self) (target_amount self)
         (fadd (current_amount self) a)).

(** [(current / target) * 100 if target > 0 else 0]; [None] is
    [ZeroDivisionError]. *)
Definition get_progress_percentage (self : t) : option pyfloat :=
  if fgt (target_amount self) zero then
    match fdiv (current_amount self) (target_amount self) with
    | Some r => Some (fmul r (Fin 100))
    | None => None
    end
  else Some zero.

Definition set_current_amount (self : t) (a : pyfloat) : t :=
  mk (goal_id self) (name self) (target_amount self) a.

Definition to_dict (self : t) : pyval :=
  VDict [ ("id", VInt (goal_id self));
          ("name", VStr (name self));
          ("target_amount", VFloat (target_amount self));
          ("current_amount", VFloat (current_amount self)) ].

Definition from_dict (data : pyval) : result t :=
  i <- getitem data "id" ;;
  n <- getitem data "name" ;;
  ta <- getitem data "target_amount" ;;
  ca <- get data "current_amount" default_current_amount ;;
  i <- as_int i ;; n <- as_str n ;;
  init i n ta ca.

End SavingsGoal.

(** ** class Budget *)

Module Budget.

Record t : Type := mk {
  budget_id : Z;
  category : string;
  limit : pyfloat;
  period : string
}.

(** [__init__(budget_id, category, limit, period="monthly")]. *)
Definition init (budget_id : Z) (category : string) (limit : pyval)
    (period : string) : result t :=
  l <- py_float limit ;;
  Ok (mk budget_id category l period).

Definition to_dict (self : t) : pyval :=
  VDict [ ("id", VInt (budget_id self));
          ("category", VStr (category self));
          ("limit", VFloat (limit self));
          ("period", VStr (period self)) ].

Definition from_dict (data : pyval) : result t :=
  i <- getitem data "id" ;;
  c <- getitem data "category" ;;
  l <- getitem data "limit" ;;
  p <- get data "period" (VStr "monthly") ;;
  i <- as_int i ;; c <- as_str c ;; p <- as_str p ;;
  init i c l p.

Definition set_limit (self : t) (l : pyfloat) : t :=
  mk (budget_id self) (category self) l (period self).

Definition set_category (self : t) (c : string) : t :=
  mk (budget_id self) c (limit self) (period self).

End Budget.

(** ** class User *)

Module User.

Record t : Type := mk {
  username : string;
  password : string;
  transactions : list Transaction.t;
  savings_goals : list SavingsGoal.t;
  budgets : list Budget.t;
  categories : list string
}.

Definition default_categories : list string :=
  ["Groceries"; "Bills"; "Entertainment"; "Transportation"; "Housing";
   "Other"].

(** [__init__(username, password, transactions=None, savings_goals=None,
    budgets=None)]. *)
Definition init (username password : string)
    (transactions : option (list Transaction.t))
    (savings_goals : option (list SavingsGoal.t))
    (budgets : option (list Budget.t)) : t :=
  mk username password (or_empty transactions) (or_empty savings_goals)
     (or_empty budgets) default_categories.

Definition set_transactions (self : t) (l : list Transaction.t) : t :=
  mk (username self) (password self) l (savings_goals self) (budgets self)
     (categories self).

Definition set_savings_goals (self : t) (l : list SavingsGoal.t) : t :=
  mk (username self) (password self) (transactions self) l (budgets self)
     (categories self).

Definition set_budgets (self : t) (l : list Budget.t) : t :=
  mk (username self) (password self) (transactions self)
     (savings_goals self) l (categories self).

Definition set_categories (self : t) (l : list string) : t :=
  mk (username self) (password self) (transactions self)
     (savings_goals self) (budgets self) l.

Definition authenticate (self : t) (pw : string) : bool :=
  String.eqb (password self) pw.

(** [sum(t.amount for t in self.transactions if t.type == ty)]: the
    built-in starts from [0] and adds the items from left to right. *)
Definition sum_amounts (ty : string) (l : list Transaction.t) : pyfloat :=
  fold_left fadd
    (map Transaction.amount
       (filter (fun t => String.eqb (Transaction.type t) ty) l))
    zero.

Definition get_balance (self : t) : pyfloat :=
  let total_income := sum_amounts "income" (transactions self) in
  let total_expenses := sum_amounts "expense" (transactions self) in
  fsub total_income total_expenses.

Definition get_total_income (self : t) : pyfloat :=
  sum_amounts "income" (transactions self).

Definition get_total_expenses (self : t) : pyfloat :=
  sum_amounts "expense" (transactions self).

(** [d[k] += v], with [d[k] = 0] first when [k] is new.  The dictionary
    keeps its keys in the order of their first insertion. *)
Fixpoint dict_add (k : string) (v : pyfloat) (d : list (string * pyfloat))
  : list (string * pyfloat) :=
  match d with
  | [] => [(k, fadd zero v)]
  | (k', x) :: d' =>
      if String.eqb k k' then (k', fadd x v) :: d'
      else (k', x) :: dict_add k v d'
  end.

Definition get_expenses_by_category (self : t) : list (string * pyfloat) :=
  fold_left
    (fun d tr =>
       if String.eqb (Transaction.type tr) "expense"
       then dict_add (Transaction.category tr) (Transaction.amount tr) d
       else d)
    (transactions self) [].

(** A notification, before it is rendered as text: the category, the
    limit and the current spending that the message quotes. *)
Inductive notification : Type :=
| BudgetAlert (category : string) (limit spending : pyfloat)
| BudgetWarning (category : string) (limit spending : pyfloat).

(** The literal [0.8]: the binary64 number nearest to eight tenths. *)
Definition warning_ratio : pyfloat :=
  Fin (3602879701896397 # 4503599627370496).

(** The smallest positive binary64 number, [2^-1074]. *)
Definition smallest : pyfloat := Fin (Qmake 1 (2 ^ 1074)%positive).

(** [limit * 0.8].  A [limit] that is a binary64 number other than zero
    has a product of size [0.8 * 2^-1074] at least, which is nearer to the
    smallest number of its sign than to zero.  The second branch gives the
    same to a [limit] of the model that is nearer to zero than every
    binary64 number, so that the threshold of a limit has the sign of the
    limit for every [limit] here as it has in the program. *)
Definition warning_threshold (limit : pyfloat) : pyfloat :=
  let threshold := fmul limit warning_ratio in
  if feq threshold zero && negb (feq limit zero) then
    if flt limit zero then fneg smallest else smallest
  else threshold.

(** The body of the loop over the budgets. *)
Definition notify (expenses_by_category : list (string * pyfloat))
    (notifications : list notification) (budget : Budget.t)
  : list notification :=
  match assoc (Budget.category budget) expenses_by_category with
  | Some current_spending =>
      if fge current_spending (Budget.limit budget) then
        notifications ++
          [BudgetAlert (Budget.category budget) (Budget.limit budget)
             current_spending]
      else if fge current_spending
                (warning_threshold (Budget.limit budget)) then
        notifications ++
          [BudgetWarning (Budget.category budget) (Budget.limit budget)
             current_spending]
      else notifications
  | None => notifications
  end.

Definition check_budget_notifications (self : t) : list notification :=
  let expenses_by_category := get_expenses_by_category self in
  fold_left (notify expenses_by_category) (budgets self) [].

(** [len(l) + 1]. *)
Definition next_id {A : Type} (l : list A) : Z := Z.of_nat (List.length l) + 1.

(** The body of [add_transaction], before decoration. *)
Definition add_transaction_body : method t Transaction.t :=
  fun self args =>
    let transaction_id := next_id (transactions self) in
    transaction <-
      Transaction.init transaction_id (arg_date args)
        (VStr (arg_amount args)) (arg_category args)
        (arg_transaction_type args) (arg_description args) ;;
    Ok (Some transaction,
        set_transactions self (transactions self ++ [transaction])).

(** [@log_transaction @validate_amount def add_transaction]. *)
Definition add_transaction (timestamp : string) (log : audit_log)
    (self : t) (date amount category transaction_type description : string)
  : result (option Transaction.t * t * audit_log) :=
  log_transaction "add_transaction" (validate_amount add_transaction_body)
    timestamp log self
    (mk_args date amount category transaction_type description).

Definition add_savings_goal (self : t) (name : string) (target_amount : pyval)
  : result (SavingsGoal.t * t) :=
  let goal_id := next_id (savings_goals self) in
  savings_goal <-
    SavingsGoal.init goal_id name target_amount
      SavingsGoal.default_current_amount ;;
  Ok (savings_goal,
      set_savings_goals self (savings_goals self ++ [savings_goal])).

Definition add_budget (self : t) (category : string) (limit : pyval)
    (period : string) : result (Budget.t * t) :=
  let budget_id := next_id (budgets self) in
  budget <- Budget.init budget_id category limit period ;;
  Ok (budget, set_budgets self (budgets self ++ [budget])).

Definition to_dict (self : t) : pyval :=
  VDict [ ("username", VStr (username self));
          ("password", VStr (password self));
          ("transactions", VList (map Transaction.to_dict (transactions self)));
          ("savings_goals", VList (map SavingsGoal.to_dict (savings_goals self)));
          ("budgets", VList (map Budget.to_dict (budgets self)));
          ("categories", VList (map VStr (categories self))) ].

Definition from_dict (data : pyval) : result t :=
  ts <- get data "transactions" (VList []) ;;
  ts <- as_list ts ;;
  transactions <- mapM Transaction.from_dict ts ;;
  gs <- get data "savings_goals" (VList []) ;;
  gs <- as_list gs ;;
  savings_goals <- mapM SavingsGoal.from_dict gs ;;
  bs <- get data "budgets" (VList []) ;;
  bs <- as_list bs ;;
  budgets <- mapM Budget.from_dict bs ;;
  u <- getitem data "username" ;;
  p <- getitem data "password" ;;
  u <- as_str u ;; p <- as_str p ;;
  let user := init u p (Some transactions) (Some savings_goals) (Some budgets) in
  has <- contains data "categories" ;;
  if has then
    cs <- getitem data "categories" ;;
    cs <- as_list cs ;;
    cs <- mapM as_str cs ;;
    Ok (set_categories user cs)
  else Ok user.

End User.

(** ** class FinanceTracker *)

Module FinanceTracker.

(** [self.users] keeps its keys in insertion order.  [current_user] is a
    reference to one of the objects held in [users], kept here as its key.
    [data_file] is the content of [finance_data.json]: the document last
    written, if any. *)
Record t : Type := mk {
  users : list (string * User.t);
  current_user : option string;
  data_file : option pyval
}.

(** [self.users[k] = v]. *)
Fixpoint setitem (k : string) (v : User.t) (d : list (string * User.t))
  : list (string * User.t) :=
  match d with
  | [] => [(k, v)]
  | (k', x) :: d' =>
      if String.eqb k k' then (k', v) :: d' else (k', x) :: setitem k v d'
  end.

Definition snapshot (us : list (string * User.t)) : pyval :=
  VDict (map (fun kv => (fst kv, User.to_dict (snd kv))) us).

(** [save_data]: every exception is caught.  [writable] tells whether the
    file can be opened for writing; when it cannot, the file is left as it
    was. *)
Definition save_data (writable : bool) (self : t) : t :=
  if writable then
    mk (users self) (current_user self) (Some (snapshot (users self)))
  else self.

Definition register_user (writable : bool) (self : t)
    (username password : string) : bool * t :=
  match assoc username (users self) with
  | Some _ => (false, self)
  | None =>
      let self' :=
        mk (setitem username (User.init username password None None None)
              (users self))
           (current_user self) (data_file self) in
      (true, save_data writable self')
  end.

(** The loop of [load_data] over the items of the document.  The first
    record that [User.from_dict] turns down ends the loop: the exception
    is caught outside the loop, and the users stored so far stay. *)
Fixpoint load_items (items : list (string * pyval))
    (us : list (string * User.t)) : list (string * User.t) :=
  match items with
  | [] => us
  | (username, user_data) :: items' =>
      match User.from_dict user_data with
      | Ok user => load_items items' (setitem username user us)
      | Raise _ => us
      end
  end.

(** [load_data]: no file, nothing to do; a document that is not an object
    makes [data.items()] raise, which is caught.  A file that is not JSON
    at all is outside the model (it is caught in the same way). *)
Definition load_data (self : t) : t :=
  match data_file self with
  | Some (VDict items) =>
      mk (load_items items (users self)) (current_user self) (data_file self)
  | Some _ | None => self
  end.

(** [FinanceTracker()], for the file found on disk. *)
Definition init (file : option pyval) : t :=
  load_data (mk [] None file).

Definition login (self : t) (username password : string) : bool * t :=
  match assoc username (users self) with
  | None => (false, self)
  | Some user =>
      if User.authenticate user password
      then (true, mk (users self) (Some username) (data_file self))
      else (false, self)
  end.

(** A [User] object is always true, so [if self.current_user] tests
    whether there is one. *)
Definition logout (self : t) : bool * t :=
  match current_user self with
  | Some _ => (true, mk (users self) None (data_file self))
  | None => (false, self)
  end.

Definition is_logged_in (self : t) : bool :=
  match current_user self with
  | Some _ => true
  | None => false
  end.

End FinanceTracker.

(** ** Menu handlers: the parts that change a user *)

(** [handle_view_transactions], choice 2: the first transaction whose id is
    [transaction_id] is deleted; [None] when there is none ("Transaction not
    found"). *)
Fixpoint delete_transaction (transaction_id : Z) (l : list Transaction.t)
  : option (list Transaction.t) :=
  match l with
  | [] => None
  | tr :: l' =>
      if Transaction.transaction_id tr =? transaction_id then Some l'
      else option_map (cons tr) (delete_transaction transaction_id l')
  end.

Definition handle_delete_transaction (user : User.t) (transaction_id : Z)
  : User.t :=
  match delete_transaction transaction_id (User.transactions user) with
  | Some l => User.set_transactions user l
  | None => user
  end.

(** [list.remove(x)]: the first occurrence goes. *)
Fixpoint list_remove (x : string) (l : list string) : list string :=
  match l with
  | [] => []
  | y :: l' => if String.eqb y x then l' else y :: list_remove x l'
  end.

Definition mem (x : string) (l : list string) : bool :=
  existsb (String.eqb x) l.

(** [confirm.lower() == 'y']. *)
Definition confirmed (confirm : string) : bool :=
  String.eqb confirm "y" || String.eqb confirm "Y".

(** [handle_categories], choice 3, for the category name and the answer to
    the confirmation that were typed in. *)
Definition handle_delete_category (user : User.t) (category confirm : string)
  : User.t :=
  if negb (mem category (User.categories user)) then user
  else if negb (confirmed confirm) then user
  else
    let transactions :=
      map (fun tr =>
             if String.eqb (Transaction.category tr) category
             then Transaction.set_category tr "Other" else tr)
          (User.transactions user) in
    let budgets :=
      filter (fun b => negb (String.eqb (Budget.category b) category))
             (User.budgets user) in
    User.mk (User.username user) (User.password user) transactions
      (User.savings_goals user) budgets
      (list_remove category (User.categories user)).

(** [handle_view_transactions], choice 2, from the text typed for the id:
    text that [int()] turns down changes nothing. *)
Definition handle_delete_transaction_input (user : User.t)
    (transaction_id : string) : User.t :=
  match int_of_string transaction_id with
  | Ok i => handle_delete_transaction user i
  | Raise _ => user
  end.

(** The choice of a category, written out in [handle_add_transaction],
    [handle_filter_transactions] and [handle_budgets]: a number from 1 to
    the length of the list stands for the category at that place, any other
    text is taken as the name. *)
Definition select_category (categories : list string)
    (category_choice : string) : string :=
  match int_of_string category_choice with
  | Ok n =>
      let category_idx := n - 1 in
      if (0 <=? category_idx)
         && (category_idx <? Z.of_nat (List.length categories))
      then nth (Z.to_nat category_idx) categories category_choice
      else category_choice
  | Raise _ => category_choice
  end.

(** [handle_add_transaction], for the answers typed in: the menu choice,
    the date (today's date when left blank), the amount, the category
    choice, the answer to "Add it to your categories?" (asked only for an
    unknown category) and the description.  The boolean tells whether
    [save_data] was called. *)
Definition handle_add_transaction (timestamp today : string)
    (log : audit_log) (user : User.t)
    (choice date amount category_choice add_to_categories description : string)
  : result (User.t * audit_log * bool) :=
  if String.eqb choice "1" || String.eqb choice "2" then
    let transaction_type :=
      if String.eqb choice "1" then "income" else "expense" in
    let date := if String.eqb date "" then today else date in
    let category := select_category (User.categories user) category_choice in
    let '(user, category) :=
      if mem category (User.categories user) then (user, category)
      else if confirmed add_to_categories then
        (User.set_categories user (User.categories user ++ [category]),
         category)
      else (user, "Other") in
    r <- User.add_transaction timestamp log user date amount category
           transaction_type description ;;
    match r with
    | (Some _, user, log) => Ok (user, log, true)
    | (None, user, log) => Ok (user, log, false)
    end
  else Ok (user, log, false).

(** [handle_savings_goals], choice 2. *)
Definition handle_add_savings_goal (user : User.t)
    (name target_amount : string) : User.t :=
  match float_of_string target_amount with
  | Ok target_amount =>
      if fle target_amount zero then user
      else
        match User.add_savings_goal user name (VFloat target_amount) with
        | Ok (_, user) => user
        | Raise _ => user
        end
  | Raise _ => user
  end.

(** [handle_savings_goals], choice 3: the loop over the goals.  Each goal
    with the id asks for an amount ([amounts k] is the [k]-th answer).  An
    amount [<= 0] makes the loop go on to the next goal; any other answer
    ends it, with the funds added when the answer is a number. *)
Fixpoint add_funds_loop (goals : list SavingsGoal.t) (goal_id : Z)
    (amounts : nat -> string) (k : nat) : list SavingsGoal.t :=
  match goals with
  | [] => []
  | goal :: goals' =>
      if SavingsGoal.goal_id goal =? goal_id then
        match float_of_string (amounts k) with
        | Ok amount =>
            if fle amount zero
            then goal :: add_funds_loop goals' goal_id amounts (S k)
            else
              match SavingsGoal.add_funds goal (VFloat amount) with
              | Ok goal => goal :: goals'
              | Raise _ => goal :: goals'
              end
        | Raise _ => goal :: goals'
        end
      else goal :: add_funds_loop goals' goal_id amounts k
  end.

Definition handle_add_funds (user : User.t) (goal_id : string)
    (amounts : nat -> string) : User.t :=
  match int_of_string goal_id with
  | Ok goal_id =>
      User.set_savings_goals user
        (add_funds_loop (User.savings_goals user) goal_id amounts 0)
  | Raise _ => user
  end.

(** [budget.limit = limit] on the first budget of the category. *)
Fixpoint update_budget_limit (category : string) (limit : pyfloat)
    (budgets : list Budget.t) : list Budget.t :=
  match budgets with
  | [] => []
  | budget :: budgets' =>
      if String.eqb (Budget.category budget) category
      then Budget.set_limit budget limit :: budgets'
      else budget :: update_budget_limit category limit budgets'
  end.

Definition has_budget (category : string) (budgets : list Budget.t) : bool :=
  existsb (fun budget => String.eqb (Budget.category budget) category) budgets.

(** The period typed in, lower-cased, or "monthly" when it is not one of
    the three known periods. *)
Definition read_period (period : string) : string :=
  let period := lower_string period in
  if mem period ["monthly"; "weekly"; "yearly"] then period else "monthly".

(** [handle_budgets], choice 2, for the answers typed in: the category
    choice, the answer to "Add it to your categories?" (asked only for an
    unknown category), the limit, the answer to "Update it?" (asked only
    when the category has a budget) and the period (asked only when it has
    none). *)
Definition handle_add_budget (user : User.t)
    (category_choice add_to_categories limit update period : string)
  : User.t :=
  let selected_category :=
    select_category (User.categories user) category_choice in
  let known := mem selected_category (User.categories user) in
  if negb known && negb (confirmed add_to_categories) then user
  else
    let user :=
      if known then user
      else User.set_categories user
             (User.categories user ++ [selected_category]) in
    match float_of_string limit with
    | Ok limit =>
        if fle limit zero then user
        else if has_budget selected_category (User.budgets user) then
          if confirmed update then
            User.set_budgets user
              (update_budget_limit selected_category limit
                 (User.budgets user))
          else user
        else
          match User.add_budget user selected_category (VFloat limit)
                  (read_period period) with
          | Ok (_, user) => user
          | Raise _ => user
          end
    | Raise _ => user
    end.

(** [handle_budgets], choice 3: the first budget with the id goes. *)
Fixpoint delete_budget (budget_id : Z) (l : list Budget.t)
  : option (list Budget.t) :=
  match l with
  | [] => None
  | budget :: l' =>
      if Budget.budget_id budget =? budget_id then Some l'
      else option_map (cons budget) (delete_budget budget_id l')
  end.

Definition handle_delete_budget (user : User.t) (budget_id : string)
  : User.t :=
  match User.budgets user with
  | [] => user
  | _ :: _ =>
      match int_of_string budget_id with
      | Ok i =>
          match delete_budget i (User.budgets user) with
          | Some l => User.set_budgets user l
          | None => user
          end
      | Raise _ => user
      end
  end.

(** [handle_categories], choice 1. *)
Definition handle_add_category (user : User.t) (category : string) : User.t :=
  if mem category (User.categories user) then user
  else User.set_categories user (User.categories user ++ [category]).

(** [l[l.index(x)] = y]. *)
Fixpoint list_replace (x y : string) (l : list string) : list string :=
  match l with
  | [] => []
  | z :: l' => if String.eqb z x then y :: l' else z :: list_replace x y l'
  end.

(** [handle_categories], choice 2. *)
Definition handle_rename_category (user : User.t)
    (old_category new_category : string) : User.t :=
  if negb (mem old_category (User.categories user)) then user
  else if mem new_category (User.categories user) then user
  else
    let transactions :=
      map (fun tr =>
             if String.eqb (Transaction.category tr) old_category
             then Transaction.set_category tr new_category else tr)
          (User.transactions user) in
    let budgets :=
      map (fun b =>
             if String.eqb (Budget.category b) old_category
             then Budget.set_category b new_category else b)
          (User.budgets user) in
    User.mk (User.username user) (User.password user) transactions
      (User.savings_goals user) budgets
      (list_replace old_category new_category (User.categories user)).

(** ** Sequences of operations on one user *)

Inductive op : Type :=
| OpAdd (timestamp date amount category transaction_type description : string)
| OpDelete (transaction_id : Z).

(** One operation.  An [add_transaction] that raises leaves the user and the
    log as they were: the exception comes from [float(amount)], before
    anything is appended. *)
Definition step (st : User.t * audit_log) (o : op) : User.t * audit_log :=
  match o with
  | OpAdd ts d a c ty de =>
      match User.add_transaction ts (snd st) (fst st) d a c ty de with
      | Ok (_, user, log) => (user, log)
      | Raise _ => st
      end
  | OpDelete i => (handle_delete_transaction (fst st) i, snd st)
  end.

Definition run (ops : list op) (st : User.t * audit_log) : User.t * audit_log :=
  fold_left step ops st.

Definition is_add (o : op) : bool :=
  match o with OpAdd _ _ _ _ _ _ => true | OpDelete _ => false end.

Definition fresh_user : User.t := User.init "alice" "secret" None None None.

(** [handle_filter_transactions]: the transactions that are listed, for the
    menu choice and the one or two texts typed after it (start and end
    date; category choice; type).  Strings are compared as Python compares
    them, character by character. *)
Definition handle_filter_transactions (user : User.t)
    (choice answer1 answer2 : string) : list Transaction.t :=
  if String.eqb choice "1" then
    let start_date := answer1 in
    let end_date := answer2 in
    filter (fun t => String.leb start_date (Transaction.date t)
                     && String.leb (Transaction.date t) end_date)
           (User.transactions user)
  else if String.eqb choice "2" then
    let selected_category :=
      select_category (User.categories user) answer1 in
    filter (fun t => String.eqb (Transaction.category t) selected_category)
           (User.transactions user)
  else if String.eqb choice "3" then
    let transaction_type := lower_string answer1 in
    if mem transaction_type ["income"; "expense"] then
      filter (fun t => String.eqb (Transaction.type t) transaction_type)
             (User.transactions user)
    else []
  else [].

(** ** Sequences of menu operations on one user *)

(** Every choice of the menus that changes the user, with the text typed
    in for it. *)
Inductive menu_op : Type :=
| MAddTransaction (timestamp today choice date amount category_choice
                     add_to_categories description : string)
| MDeleteTransaction (transaction_id : string)
| MAddSavingsGoal (name target_amount : string)
| MAddFunds (goal_id : string) (amounts : nat -> string)
| MAddBudget (category_choice add_to_categories limit update period : string)
| MDeleteBudget (budget_id : string)
| MAddCategory (category : string)
| MRenameCategory (old_category new_category : string)
| MDeleteCategory (category confirm : string).

(** One choice; [None] when [add_transaction] raises, which ends the
    program. *)
Definition menu_step (st : User.t * audit_log) (o : menu_op)
  : option (User.t * audit_log) :=
  let '(user, log) := st in
  match o with
  | MAddTransaction ts today ch d a cc add de =>
      match handle_add_transaction ts today log user ch d a cc add de with
      | Ok (user', log', _) => Some (user', log')
      | Raise _ => None
      end
  | MDeleteTransaction i => Some (handle_delete_transaction_input user i, log)
  | MAddSavingsGoal n t => Some (handle_add_savings_goal user n t, log)
  | MAddFunds i amounts => Some (handle_add_funds user i amounts, log)
  | MAddBudget cc add l up pe =>
      Some (handle_add_budget user cc add l up pe, log)
  | MDeleteBudget i => Some (handle_delete_budget user i, log)
  | MAddCategory c => Some (handle_add_category user c, log)
  | MRenameCategory o n => Some (handle_rename_category user o n, log)
  | MDeleteCategory c confirm =>
      Some (handle_delete_category user c confirm, log)
  end.

(** The state after the choices, or when the program ended. *)
Fixpoint menu_run (ops : list menu_op) (st : User.t * audit_log)
  : User.t * audit_log :=
  match ops with
  | [] => st
  | o :: ops' =>
      match menu_step st o with
      | Some st' => menu_run ops' st'
      | None => st
      end
  end.

(** ** Sequences of operations on the registry *)

Inductive registry_op : Type :=
| RRegister (writable : bool) (username password : string)
| RLogin (username password : string)
| RLogout.

Definition registry_step (self : FinanceTracker.t) (o : registry_op)
  : FinanceTracker.t :=
  match o with
  | RRegister w u p => snd (FinanceTracker.register_user w self u p)
  | RLogin u p => snd (FinanceTracker.login self u p)
  | RLogout => snd (FinanceTracker.logout self)
  end.

Definition registry_run (ops : list registry_op) (self : FinanceTracker.t)
  : FinanceTracker.t :=
  fold_left registry_step ops self.

(** * Specification-side definitions and example data *)

Definition is_expense (tr : Transaction.t) : bool :=
  String.eqb (Transaction.type tr) "expense".

(** The amounts of the expenses of one category, in the order of the
    transactions. *)
Definition category_expenses (user : User.t) (category : string)
  : list pyfloat :=
  map Transaction.amount
    (filter (fun tr => is_expense tr
                       && String.eqb (Transaction.category tr) category)
            (User.transactions user)).

Module NotificationSpec.

(** The spending of a budget: the amounts of the expenses of its category,
    added one after the other to 0; 0 when the category has no expense. *)
Definition spent (user : User.t) (budget : Budget.t) : pyfloat :=
  fold_left fadd (category_expenses user (Budget.category budget)) zero.

(** The message of a budget for the spending [s]: "exceeded" when
    [s >= limit], otherwise "warning" when [s >= limit * 0.8], otherwise
    nothing. *)
Definition message (s : pyfloat) (budget : Budget.t)
  : list User.notification :=
  let limit := Budget.limit budget in
  if fge s limit then
    [User.BudgetAlert (Budget.category budget) limit s]
  else if fge s (User.warning_threshold limit) then
    [User.BudgetWarning (Budget.category budget) limit s]
  else [].

(** Follows the specification: the rule is applied to every budget, with a
    spending of 0 for a category without expense. *)
Definition claimed (user : User.t) : list User.notification :=
  flat_map (fun budget => message (spent user budget) budget)
    (User.budgets user).

(** The rule with the amendment: a budget whose category has no expense
    gets no message. *)
Definition messages (user : User.t) (budget : Budget.t)
  : list User.notification :=
  match category_expenses user (Budget.category budget) with
  | [] => []
  | _ :: _ => message (spent user budget) budget
  end.

Definition check_budget_notifications (user : User.t)
  : list User.notification :=
  flat_map (messages user) (User.budgets user).

End NotificationSpec.

(** The four cases listed with the property: a limit of 100 with a spending
    of 100, of 80, of 79.99, and with no expense in the category. *)
Definition budget_example : User.t :=
  User.mk "alice" "secret"
    [ Transaction.mk 1 "2024-01-01" (Fin 100) "Bills" "expense" "";
      Transaction.mk 2 "2024-01-02" (Fin 80) "Groceries" "expense" "";
      Transaction.mk 3 "2024-01-03" (Fin 79.99) "Housing" "expense" "" ]
    []
    [ Budget.mk 1 "Bills" (Fin 100) "monthly";
      Budget.mk 2 "Groceries" (Fin 100) "monthly";
      Budget.mk 3 "Housing" (Fin 100) "monthly";
      Budget.mk 4 "Entertainment" (Fin 100) "monthly" ]
    User.default_categories.

(** A new user with an expense of 30 for groceries, and budgets of 100 for
    groceries, of 0 for bills and of -5 for housing, as [add_budget] takes
    them. *)
Definition zero_limit_example : User.t :=
  User.mk "alice" "secret"
    [ Transaction.mk 1 "2024-01-01" (Fin 30) "Groceries" "expense" "" ]
    []
    [ Budget.mk 1 "Groceries" (Fin 100) "monthly";
      Budget.mk 2 "Bills" (Fin 0) "monthly";
      Budget.mk 3 "Housing" (Fin (-5)) "monthly" ]
    User.default_categories.

Definition ids (user : User.t) : list Z :=
  map Transaction.transaction_id (User.transactions user).

(** The ids 1, 2, ..., n. *)
Definition first_ids (n : nat) : list Z := map Z.of_nat (seq 1 n).

Definition numbered (user : User.t) : Prop :=
  ids user = first_ids (List.length (User.transactions user)).

(** Two adds, the deletion of transaction 1, and one more add.  The dates
    are written without dashes: [validate_amount] lets a call through only
    when its date argument reads as a positive number. *)
Definition add_add_delete_add : list op :=
  [ OpAdd "2024-01-01 09:00:00" "20240101" "10" "Bills" "expense" "a";
    OpAdd "2024-01-02 09:00:00" "20240102" "20" "Bills" "expense" "b";
    OpDelete 1;
    OpAdd "2024-01-03 09:00:00" "20240103" "30" "Bills" "expense" "c" ].

(** An add, the deletion of that transaction, and one more add. *)
Definition add_delete_add : list op :=
  [ OpAdd "2024-01-01 09:00:00" "20240101" "10" "Bills" "expense" "a";
    OpDelete 1;
    OpAdd "2024-01-02 09:00:00" "20240102" "20" "Bills" "expense" "b" ].

Definition three_adds : list op :=
  [ OpAdd "2024-01-01 09:00:00" "20240101" "10" "Bills" "expense" "a";
    OpAdd "2024-01-02 09:00:00" "2024-01-02" "20" "Bills" "expense" "b";
    OpAdd "2024-01-03 09:00:00" "20240103" "30" "Salary" "income" "c" ].

Definition goal_ids (user : User.t) : list Z :=
  map SavingsGoal.goal_id (User.savings_goals user).

(** Three goals added to a new user. *)
Definition three_goals : result User.t :=
  r1 <- User.add_savings_goal fresh_user "Car" (VFloat (Fin 5000)) ;;
  r2 <- User.add_savings_goal (snd r1) "Trip" (VFloat (Fin 1200)) ;;
  r3 <- User.add_savings_goal (snd r2) "Laptop" (VFloat (Fin 900)) ;;
  Ok (snd r3).

Definition empty_tracker : FinanceTracker.t :=
  FinanceTracker.mk [] None None.

(** The record of a user who has just registered, as the file is to hold
    it. *)
Definition new_user_document (username password : string) : pyval :=
  VDict [ ("username", VStr username);
          ("password", VStr password);
          ("transactions", VList []);
          ("savings_goals", VList []);
          ("budgets", VList []);
          ("categories",
           VList [ VStr "Groceries"; VStr "Bills"; VStr "Entertainment";
                   VStr "Transportation"; VStr "Housing"; VStr "Other" ]) ].

Definition recategorised (category : string) (tr tr' : Transaction.t) : Prop :=
  if String.eqb (Transaction.category tr) category
  then tr' = Transaction.set_category tr "Other"
  else tr' = tr.

(** A user with a transaction and a budget in "Bills", and one of each in
    "Groceries". *)
Definition bills_example : User.t :=
  User.mk "alice" "secret"
    [ Transaction.mk 1 "2024-01-05" (Fin 60) "Bills" "expense" "power";
      Transaction.mk 2 "2024-01-06" (Fin 25) "Groceries" "expense" "market" ]
    []
    [ Budget.mk 1 "Bills" (Fin 200) "monthly";
      Budget.mk 2 "Groceries" (Fin 300) "monthly" ]
    User.default_categories.

(** The last character of [s], or [d] when [s] is empty. *)
Fixpoint last_char (s : string) (d : ascii) : ascii :=
  match s with
  | EmptyString => d
  | String c s' => last_char s' c
  end.

(** Follows the specification: the line is said to name the description
    after the amount. *)
Definition spec_log_line (timestamp a1 amount description : string) : string :=
  (timestamp ++ " - add_transaction: " ++ a1 ++ " $" ++ amount ++ " - "
     ++ description)%string.


(** ** Definitions for the further properties *)

(** The categories of the expenses, in the order of the transactions. *)
Definition expense_categories (user : User.t) : list string :=
  map Transaction.category (filter is_expense (User.transactions user)).

(** The elements of [l] that are not in [seen], each once, in the order in
    which they first occur. *)
Fixpoint first_seen (seen l : list string) : list string :=
  match l with
  | [] => []
  | x :: l' =>
      if mem x seen then first_seen seen l'
      else x :: first_seen (seen ++ [x]) l'
  end.

Definition expenses_example : User.t :=
  User.mk "alice" "secret"
    [ Transaction.mk 1 "2024-01-01" (Fin 40) "Bills" "expense" "";
      Transaction.mk 2 "2024-01-02" (Fin 900) "Salary" "income" "";
      Transaction.mk 3 "2024-01-03" (Fin 15) "Groceries" "expense" "";
      Transaction.mk 4 "2024-01-04" (Fin 25) "Bills" "expense" "" ]
    [] [] User.default_categories.


Definition progress_example : SavingsGoal.t :=
  SavingsGoal.mk 1 "Car" (Fin 250) (Fin 250).


(** The first of [keys] that the dictionary [d] lacks. *)
Definition first_missing (keys : list string) (d : list (string * pyval))
  : option string :=
  find (fun k => match assoc k d with None => true | Some _ => false end) keys.


Definition usernames (self : FinanceTracker.t) : list string :=
  map fst (FinanceTracker.users self).

(** The session, when there is one, is the session of a registered user,
    and no username is registered twice. *)
Definition registry_ok (self : FinanceTracker.t) : Prop :=
  NoDup (usernames self)
  /\ match FinanceTracker.current_user self with
     | Some k => In k (usernames self)
     | None => True
     end.

(** A document with two good records around a record without password. *)
Definition damaged_file : pyval :=
  VDict [ ("ann", User.to_dict (User.init "ann" "pw1" None None None));
          ("bob", VDict [("username", VStr "bob")]);
          ("cy", User.to_dict (User.init "cy" "pw3" None None None)) ].

Definition session_ops : list registry_op :=
  [ RRegister true "ann" "pw1"; RLogin "ann" "pw1"; RRegister false "bob" "x";
    RLogin "bob" "y"; RLogout; RLogout; RLogin "bob" "x" ].


Definition budget_categories (user : User.t) : list string :=
  map Budget.category (User.budgets user).

(** What the menus keep true of a user: the category list has no
    repetition; every budget is for a listed category; no category has two
    budgets; no budget has a limit [<= 0]. *)
Definition menu_ok (user : User.t) : Prop :=
  NoDup (User.categories user)
  /\ incl (budget_categories user) (User.categories user)
  /\ NoDup (budget_categories user)
  /\ Forall (fun b => fle (Budget.limit b) zero = false) (User.budgets user).

Definition menu_example : list menu_op :=
  [ MAddBudget "Bills" "" "200" "" "weekly";
    MAddBudget "2" "" "250.5" "y" "";
    MAddBudget "Pets" "y" "-3" "" "";
    MAddBudget "Pets" "" "40" "" "Daily";
    MRenameCategory "Bills" "Utilities";
    MAddCategory "Pets";
    MAddTransaction "2024-03-01 08:00:00" "2024-03-01" "2" "" "12" "Utilities"
      "" "water";
    MDeleteCategory "Groceries" "Y";
    MDeleteBudget "7" ].


(** [handle_budgets], choice 1: the status shown for a budget, for the
    expenses map of the user.  The spending of a category without expense
    is taken as 0. *)
Definition budget_status (expenses_by_category : list (string * pyfloat))
    (budget : Budget.t) : string :=
  let current_spending :=
    match assoc (Budget.category budget) expenses_by_category with
    | Some s => s
    | None => zero
    end in
  if fge current_spending (Budget.limit budget) then "EXCEEDED"
  else if fge current_spending (User.warning_threshold (Budget.limit budget))
  then "WARNING"
  else "OK".

(** The notification that goes with a status. *)
Definition notification_of_status (expenses_by_category : list (string * pyfloat))
    (budget : Budget.t) : list User.notification :=
  let current_spending :=
    match assoc (Budget.category budget) expenses_by_category with
    | Some s => s
    | None => zero
    end in
  let status := budget_status expenses_by_category budget in
  if String.eqb status "EXCEEDED" then
    [User.BudgetAlert (Budget.category budget) (Budget.limit budget)
       current_spending]
  else if String.eqb status "WARNING" then
    [User.BudgetWarning (Budget.category budget) (Budget.limit budget)
       current_spending]
  else [].

Definition renamed (old_category new_category c : string) : string :=
  if String.eqb c old_category then new_category else c.


Definition rename_example : User.t :=
  User.mk "alice" "secret"
    [ Transaction.mk 1 "2024-01-05" (Fin 60) "Bills" "expense" "power";
      Transaction.mk 2 "2024-01-06" (Fin 25) "Utilities" "expense" "orphan" ]
    []
    [ Budget.mk 1 "Bills" (Fin 200) "monthly" ]
    User.default_categories.

Definition status_example : User.t :=
  User.mk "alice" "secret"
    [ Transaction.mk 1 "2024-01-01" (Fin 260) "Utilities" "expense" "";
      Transaction.mk 2 "2024-01-02" (Fin 33) "Pets" "expense" "" ]
    []
    (User.budgets (fst (menu_run menu_example (fresh_user, []))))
    (User.categories (fst (menu_run menu_example (fresh_user, [])))).


(** Ten characters: four digits, a dash, two digits, a dash, two digits,
    as [strftime("%Y-%m-%d")] writes a date. *)
Definition is_iso_date (s : string) : bool :=
  match list_ascii_of_string s with
  | [y1; y2; y3; y4; s1; m1; m2; s2; d1; d2] =>
      forallb is_digit [y1; y2; y3; y4; m1; m2; d1; d2]
      && is_char s1 "-" && is_char s2 "-"
  | _ => false
  end.


Definition goals_example : User.t :=
  User.mk "alice" "secret" []
    [ SavingsGoal.mk 1 "Car" (Fin 5000) (Fin 100);
      SavingsGoal.mk 2 "Trip" (Fin 1200) (Fin 0) ]
    [] User.default_categories.

(** The answers "-5", then "20" to every later question. *)
Definition answers_example (k : nat) : string :=
  match k with
  | O => "-5"
  | _ => "20"
  end.


(** The number YYYYMMDD of a date written as YYYY-MM-DD. *)
Definition date_number (s : string) : Z :=
  match list_ascii_of_string s with
  | [y1; y2; y3; y4; _; m1; m2; _; d1; d2] =>
      fold_left (fun n c => n * 10 + digit_val c)
        [y1; y2; y3; y4; m1; m2; d1; d2] 0
  | _ => 0
  end.

Definition dated_example : User.t :=
  User.mk "alice" "secret"
    [ Transaction.mk 1 "2023-12-31" (Fin 10) "Bills" "expense" "";
      Transaction.mk 2 "2024-01-15" (Fin 20) "Bills" "expense" "";
      Transaction.mk 3 "2024-02-01" (Fin 30) "Salary" "income" "" ]
    [] [] User.default_categories.

(** * Properties *)

(** ** Facts about floats *)

Lemma Qle_bool_false (x y : Q) : Qle_bool x y = false <-> (y < x)%Q.
Proof.
  rewrite <- Bool.not_true_iff_false, Qle_bool_iff. split.
  - apply Qnot_le_lt.
  - apply Qlt_not_le.
Qed.

Lemma Qeq_bool_false_of_pos (q : Q) : (0 < q)%Q -> Qeq_bool q 0 = false.
Proof.
  intros Hq. destruct (Qeq_bool q 0) eqn:E; [|reflexivity].
  apply Qeq_bool_iff in E. rewrite E in Hq. now apply Qlt_irrefl in Hq.
Qed.

(** Rounding depends on the value of the rational only. *)
Lemma round64_compat (x y : Q) : (x == y)%Q -> round64 x = round64 y.
Proof. intros H. unfold round64. now rewrite (Qred_complete x y H). Qed.

Lemma div_nearest_even_nonneg (n d : Z) :
  0 <= n -> 0 < d -> 0 <= div_nearest_even n d.
Proof.
  intros Hn Hd. unfold div_nearest_even.
  pose proof (Z.div_pos n d Hn Hd).
  destruct (2 * (n mod d) ?= d); [destruct (Z.even _)|..]; lia.
Qed.

Lemma round64_pos_nonneg (n d : positive) :
  round64_pos n d = PosInf
  \/ exists y, round64_pos n d = Fin y /\ (0 <= y)%Q.
Proof.
  unfold round64_pos.
  set (p := Z.max (log2_floor n d - 52) (-1074)).
  set (m := if 0 <=? p then _ else _).
  assert (Hm : 0 <= m).
  { subst m. destruct (0 <=? p) eqn:Ep.
    - apply Z.leb_le in Ep. apply div_nearest_even_nonneg; [lia|].
      apply Z.mul_pos_pos; [lia|]. now apply Z.pow_pos_nonneg.
    - apply Z.leb_gt in Ep. apply div_nearest_even_nonneg; [|lia].
      apply Z.mul_nonneg_nonneg; [lia|]. apply Z.pow_nonneg. lia. }
  destruct (2 ^ 1024 <=? m * 2 ^ p); [now left|right].
  destruct (0 <=? p) eqn:Ep; eexists; (split; [reflexivity|]).
  - apply Z.leb_le in Ep. unfold Qle, inject_Z. cbn [Qnum Qden].
    assert (0 <= m * 2 ^ p); [|lia].
    apply Z.mul_nonneg_nonneg; [exact Hm|]. apply Z.pow_nonneg. lia.
  - rewrite Qred_correct. unfold Qle. cbn [Qnum Qden]. lia.
Qed.

(** A positive number is rounded to zero, to a positive number or to the
    positive infinity. *)
Lemma round64_nonneg (q : Q) :
  (0 < q)%Q ->
  round64 q = PosInf \/ exists y, round64 q = Fin y /\ (0 <= y)%Q.
Proof.
  intros Hq. unfold round64. rewrite <- (Qred_correct q) in Hq.
  destruct (Qred q) as [n d]. unfold Qlt in Hq. cbn [Qnum Qden] in *.
  destruct n as [|n|n]; try lia. apply round64_pos_nonneg.
Qed.








(** A limit that is not [<= 0] is not reached by a spending of zero, and
    neither is its warning threshold. *)
Lemma limit_above_zero (l : pyfloat) :
  fle l zero = false ->
  fge zero l = false /\ fge zero (User.warning_threshold l) = false.
Proof.
  destruct l as [q| | |]; try discriminate; try (now split).
  intros H. split; [exact H|]. cbn [fle zero] in H.
  apply Qle_bool_false in H.
  assert (Hp : (0 < q * (3602879701896397 # 4503599627370496))%Q).
  { rewrite <- (Qmult_0_l (3602879701896397 # 4503599627370496)).
    apply Qmult_lt_compat_r; [reflexivity|exact H]. }
  unfold User.warning_threshold. cbn [fmul User.warning_ratio].
  destruct (round64_nonneg _ Hp) as [E|(y & E & Hy)]; rewrite E;
    [reflexivity|].
  cbn [feq zero]. rewrite (Qeq_bool_false_of_pos q H). cbn [negb andb].
  destruct (Qeq_bool y 0) eqn:Ey; cbn [andb].
  - replace (flt (Fin q) zero) with false; [reflexivity|].
    symmetry. cbn [flt zero]. apply Bool.negb_false_iff, Qle_bool_iff.
    now apply Qlt_le_weak.
  - cbn [fge fle zero]. apply Qle_bool_false.
    apply Qle_lt_or_eq in Hy. destruct Hy as [Hy|Hy]; [exact Hy|].
    symmetry in Hy. apply Qeq_bool_iff in Hy. congruence.
Qed.


(** ** Balance *)

Lemma fold_left_fadd_finite (l : list pyfloat) (q : Q) :
  Forall (fun a => is_finite a = true) l ->
  exists q', fold_left fadd l (Fin q) = Fin q'.
Proof.
  revert q. induction l as [|a l IH]; intros q Hl; simpl.
  - now exists q.
  - inversion Hl as [|? ? Ha Hl']; subst.
    destruct a as [x| | |]; try discriminate. simpl. now apply IH.
Qed.

Lemma sum_amounts_finite (ty : string) (l : list Transaction.t) :
  Forall (fun tr => is_finite (Transaction.amount tr) = true) l ->
  exists q, User.sum_amounts ty l = Fin q.
Proof.
  intros Hl. unfold User.sum_amounts, zero. apply fold_left_fadd_finite.
  apply Forall_map. apply Forall_forall. intros tr Hin.
  apply filter_In in Hin. destruct Hin as [Hin _].
  rewrite Forall_forall in Hl. now apply Hl.
Qed.

(** C1. For every user reached by any sequence of operations,
    [get_balance()] returns the value of [get_total_income()] minus
    [get_total_expenses()]. *)
Theorem get_balance_is_income_minus_expenses
    (ops : list op) (user : User.t) (log : audit_log) :
  let user' := fst (run ops (user, log)) in
  User.get_balance user' =
  fsub (User.get_total_income user') (User.get_total_expenses user').
Proof. reflexivity. Qed.

(** When every stored amount is finite the two values also compare equal
    with Python's [==] (which is false on NaN). *)
Lemma get_balance_py_eq (user : User.t) :
  Forall (fun tr => is_finite (Transaction.amount tr) = true)
         (User.transactions user) ->
  feq (User.get_balance user)
      (fsub (User.get_total_income user) (User.get_total_expenses user))
  = true.
Proof.
  intros Hl. unfold User.get_balance, User.get_total_income,
    User.get_total_expenses.
  destruct (sum_amounts_finite "income" _ Hl) as [i ->].
  destruct (sum_amounts_finite "expense" _ Hl) as [e ->].
  simpl. apply Qeq_bool_iff. reflexivity.
Qed.

(** ** Validation of [add_transaction] *)

(** What [validate_amount] lets through is decided by the date argument
    alone. *)
Lemma validate_amount_reads_date {S R : Type} (func : method S R)
    (self : S) (args : call_args) (f : pyfloat) :
  float_of_string (arg_date args) = Ok f ->
  validate_amount func self args =
  if fle f zero then Ok (None, self) else func self args.
Proof. intros H. unfold validate_amount. simpl. now rewrite H. Qed.

Lemma validate_amount_bad_date {S R : Type} (func : method S R)
    (self : S) (args : call_args) :
  float_of_string (arg_date args) = Raise ValueError ->
  validate_amount func self args = Ok (None, self).
Proof. intros H. unfold validate_amount. simpl. now rewrite H. Qed.

(** C2, evaluated on the code.  With an ISO date the call is turned down
    although the amount is a positive number, and nothing is appended; with
    a date that reads as a positive number a negative amount is accepted and
    the transaction is appended and logged, and an amount that is not a
    number is not turned down but makes [float()] raise in the constructor. *)
Theorem add_transaction_validates_date_not_amount :
  User.add_transaction "2024-01-15 10:00:00" [] fresh_user
    "2024-01-15" "50" "Bills" "expense" "rent"
  = Ok (None, fresh_user, [])
  /\
  exists tr,
    User.add_transaction "2024-01-15 10:00:00" [] fresh_user
      "20240115" "-5" "Bills" "expense" "rent"
    = Ok (Some tr, User.set_transactions fresh_user [tr],
          ["2024-01-15 10:00:00 - add_transaction: 20240115 $-5 - Bills"%string])
    /\ Transaction.amount tr = Fin (-5 # 1)
    /\ fgt (Transaction.amount tr) zero = false
    /\ User.add_transaction "2024-01-15 10:00:00" [] fresh_user
         "20240115" "abc" "Bills" "expense" "rent"
       = Raise ValueError.
Proof.
  split; [reflexivity|].
  eexists. split; [reflexivity|]. repeat split; reflexivity.
Qed.

(** ** Budget notifications *)

Lemma assoc_dict_add_same (k : string) (v : pyfloat)
    (d : list (string * pyfloat)) :
  assoc k (User.dict_add k v d)
  = Some (fadd (match assoc k d with Some x => x | None => zero end) v).
Proof.
  induction d as [|[k' x] d IH]; simpl.
  - now rewrite String.eqb_refl.
  - destruct (String.eqb k k') eqn:E; simpl; rewrite E; [reflexivity|exact IH].
Qed.

Lemma assoc_dict_add_other (k c : string) (v : pyfloat)
    (d : list (string * pyfloat)) :
  String.eqb k c = false ->
  assoc c (User.dict_add k v d) = assoc c d.
Proof.
  intros Hne. rewrite String.eqb_sym in Hne.
  induction d as [|[k' x] d IH]; simpl.
  - now rewrite Hne.
  - destruct (String.eqb k k') eqn:E; simpl.
    + apply String.eqb_eq in E. subst k'. now rewrite Hne.
    + now rewrite IH.
Qed.

Lemma expenses_fold_value (c : string) (txs : list Transaction.t)
    (d : list (string * pyfloat)) :
  assoc c
    (fold_left
       (fun d tr =>
          if String.eqb (Transaction.type tr) "expense"
          then User.dict_add (Transaction.category tr)
                 (Transaction.amount tr) d
          else d) txs d)
  = let amounts :=
      map Transaction.amount
        (filter (fun tr => is_expense tr
                           && String.eqb (Transaction.category tr) c) txs) in
    match assoc c d, amounts with
    | Some x, _ => Some (fold_left fadd amounts x)
    | None, [] => None
    | None, _ :: _ => Some (fold_left fadd amounts zero)
    end.
Proof.
  unfold is_expense. revert d.
  induction txs as [|tr txs IH]; intros d; simpl.
  - now destruct (assoc c d).
  - rewrite IH.
    destruct (String.eqb (Transaction.type tr) "expense"); [|reflexivity].
    simpl. destruct (String.eqb (Transaction.category tr) c) eqn:E.
    + apply String.eqb_eq in E. subst c. rewrite assoc_dict_add_same. simpl.
      now destruct (assoc (Transaction.category tr) d).
    + now rewrite assoc_dict_add_other.
Qed.



(** C3, the rule as it is worded.  It gives a spending of 0 to a category
    without expense, and 0 reaches a limit that is zero or negative: the
    budgets of 0 for bills and of -5 for housing would each get the
    "exceeded" message.  The program passes over a budget whose category
    has no expense, and returns no message at all. *)
Lemma zero_limit_gets_no_message :
  User.add_budget
    (User.set_budgets zero_limit_example
       [Budget.mk 1 "Groceries" (Fin 100) "monthly"])
    "Bills" (VInt 0) "monthly"
  = Ok (Budget.mk 2 "Bills" (Fin 0) "monthly",
        User.set_budgets zero_limit_example
          [ Budget.mk 1 "Groceries" (Fin 100) "monthly";
            Budget.mk 2 "Bills" (Fin 0) "monthly" ])
  /\ NotificationSpec.claimed zero_limit_example
     = [ User.BudgetAlert "Bills" (Fin 0) zero;
         User.BudgetAlert "Housing" (Fin (-5)) zero ]
  /\ User.check_budget_notifications zero_limit_example = [].
Proof. repeat split; reflexivity. Qed.


(** The four cases listed with the property. *)
Lemma budget_example_notifications :
  User.check_budget_notifications budget_example
  = [ User.BudgetAlert "Bills" (Fin 100) (Fin 100);
      User.BudgetWarning "Groceries" (Fin 100) (Fin 80) ].
Proof. reflexivity. Qed.

(** A limit of 3 has the threshold 2.4000000000000004, the float nearest
    to the product of 3 and the float 0.8: a spending of 2.4 gets no
    message, a spending of 2.4000000000000004 gets the warning. *)
Lemma threshold_example :
  User.warning_threshold (Fin 3) = Fin (1351079888211149 # 562949953421312)
  /\ float_of_string "2.4000000000000004"
     = Ok (Fin (1351079888211149 # 562949953421312))
  /\ User.warning_threshold (Fin 100) = Fin 80
  /\ NotificationSpec.message (Fin 2.4) (Budget.mk 1 "Bills" (Fin 3) "monthly")
     = []
  /\ NotificationSpec.message (Fin (1351079888211149 # 562949953421312))
       (Budget.mk 1 "Bills" (Fin 3) "monthly")
     = [User.BudgetWarning "Bills" (Fin 3)
          (Fin (1351079888211149 # 562949953421312))].
Proof. repeat split; vm_compute; reflexivity. Qed.


(** ** Round trip through the document form *)

Lemma mapM_map_inverse {A : Type} (enc : A -> pyval) (dec : pyval -> result A)
    (l : list A) :
  (forall a, dec (enc a) = Ok a) -> mapM dec (map enc l) = Ok l.
Proof.
  intros H. induction l as [|a l IH]; simpl; [reflexivity|].
  now rewrite H, IH.
Qed.

Lemma or_empty_some {A : Type} (l : list A) : or_empty (Some l) = l.
Proof. now destruct l. Qed.

Lemma Transaction_round_trip (tr : Transaction.t) :
  Transaction.from_dict (Transaction.to_dict tr) = Ok tr.
Proof. now destruct tr. Qed.

Lemma SavingsGoal_round_trip (g : SavingsGoal.t) :
  SavingsGoal.from_dict (SavingsGoal.to_dict g) = Ok g.
Proof. now destruct g. Qed.

Lemma Budget_round_trip (b : Budget.t) :
  Budget.from_dict (Budget.to_dict b) = Ok b.
Proof. now destruct b. Qed.

(** C4. Rebuilding a user with [from_dict] from the document that [to_dict]
    made of it gives the same user back: the same name and password, the
    same transactions, savings goals and budgets with all their fields, and
    the same list of categories. *)
Theorem User_round_trip (user : User.t) :
  User.from_dict (User.to_dict user) = Ok user.
Proof.
  destruct user as [u p ts gs bs cs].
  unfold User.from_dict, User.to_dict. cbn -[mapM User.init].
  rewrite (mapM_map_inverse _ _ ts Transaction_round_trip). cbn -[mapM User.init].
  rewrite (mapM_map_inverse _ _ gs SavingsGoal_round_trip). cbn -[mapM User.init].
  rewrite (mapM_map_inverse _ _ bs Budget_round_trip). cbn -[mapM User.init].
  rewrite (mapM_map_inverse VStr as_str cs) by reflexivity. cbn -[User.init].
  unfold User.init, User.set_categories. rewrite !or_empty_some.
  reflexivity.
Qed.

(** ** One call of [add_transaction] *)

(** The three outcomes of a call: a transaction is returned, it carries the
    next id and the arguments, it is appended to the list, and one line is
    appended to the log; or [None] is returned and nothing changes; or the
    call raises. *)
Lemma add_transaction_cases (ts : string) (log : audit_log) (user : User.t)
    (d a c ty de : string) :
  match User.add_transaction ts log user d a c ty de with
  | Ok (Some tr, user', log') =>
      Transaction.transaction_id tr = User.next_id (User.transactions user)
      /\ Transaction.date tr = d /\ Transaction.category tr = c
      /\ Transaction.type tr = ty /\ Transaction.description tr = de
      /\ float_of_string a = Ok (Transaction.amount tr)
      /\ user' = User.set_transactions user (User.transactions user ++ [tr])
      /\ log' = log ++ [log_line ts "add_transaction" d a c]
  | Ok (None, user', log') => user' = user /\ log' = log
  | Raise _ => True
  end.
Proof.
  unfold User.add_transaction, log_transaction, validate_amount. simpl.
  destruct (float_of_string d) as [f|[]]; simpl; auto.
  destruct (fle f zero); simpl; auto.
  unfold User.add_transaction_body, Transaction.init. simpl.
  destruct (float_of_string a) as [x|e]; simpl; auto.
  repeat split; reflexivity.
Qed.

(** ** Transaction ids *)

Lemma first_ids_NoDup (n : nat) : NoDup (first_ids n).
Proof.
  unfold first_ids. apply Injective_map_NoDup.
  - intros x y. apply Nat2Z.inj.
  - apply seq_NoDup.
Qed.

Lemma first_ids_S (n : nat) :
  first_ids (S n) = first_ids n ++ [Z.of_nat n + 1].
Proof.
  unfold first_ids. rewrite seq_S, map_app. simpl. f_equal. f_equal. lia.
Qed.

Lemma add_keeps_numbered (ts : string) (log : audit_log) (user : User.t)
    (d a c ty de : string) :
  numbered user ->
  numbered (fst (step (user, log) (OpAdd ts d a c ty de))).
Proof.
  intros Hn. unfold step. simpl.
  pose proof (add_transaction_cases ts log user d a c ty de) as H.
  destruct (User.add_transaction ts log user d a c ty de)
    as [[[[tr|] user'] log']|e]; simpl; [| |exact Hn].
  - destruct H as (Hid & _ & _ & _ & _ & _ & -> & _).
    unfold numbered, ids in *. simpl.
    rewrite map_app, length_app, Nat.add_1_r, first_ids_S, Hn. simpl.
    now rewrite Hid.
  - destruct H as [-> _]. exact Hn.
Qed.

(** C5 fails.  After [add_add_delete_add] the list holds two transactions
    with id 2.  In [add_delete_add] the first transaction gets id 1 and is
    deleted, and the transaction added next gets id 1 again. *)
Lemma transaction_id_reused_after_delete :
  ~ (forall ops, NoDup (ids (fst (run ops (fresh_user, [])))))
  /\ ids (fst (run add_add_delete_add (fresh_user, []))) = [2; 2]
  /\ ids (fst (run (firstn 1 add_delete_add) (fresh_user, []))) = [1]
  /\ ids (fst (run (firstn 2 add_delete_add) (fresh_user, []))) = []
  /\ ids (fst (run add_delete_add (fresh_user, []))) = [1].
Proof.
  split; [|repeat split; reflexivity].
  intros H. specialize (H add_add_delete_add).
  change (NoDup [2; 2]) in H.
  inversion H as [|? ? Hnotin _]; subst. apply Hnotin. now left.
Qed.

(** C5, amended.  As long as nothing is deleted the ids are unique: on a
    user whose transactions carry the ids 1, 2, ..., n in this order, any
    sequence of [add_transaction] calls leaves a list with the ids
    1, 2, ..., n' in this order, hence pairwise distinct. *)
Theorem transaction_ids_unique_without_delete
    (ops : list op) (user : User.t) (log : audit_log) :
  forallb is_add ops = true ->
  numbered user ->
  let user' := fst (run ops (user, log)) in
  numbered user' /\ NoDup (ids user').
Proof.
  intros Hadd Hn user'.
  assert (Hn' : numbered user').
  { subst user'. unfold run. revert user log Hn.
    induction ops as [|o ops IH]; intros user log Hn; simpl; [exact Hn|].
    simpl in Hadd. apply andb_prop in Hadd. destruct Hadd as [Ho Hops].
    destruct o as [ts d a c ty de|i]; [|discriminate].
    pose proof (add_keeps_numbered ts log user d a c ty de Hn) as Hstep.
    destruct (step (user, log) (OpAdd ts d a c ty de)) as [u1 l1].
    now apply IH. }
  split; [exact Hn'|]. rewrite Hn'. apply first_ids_NoDup.
Qed.

Lemma transaction_ids_unique_without_delete_witness :
  forallb is_add three_adds = true
  /\ numbered fresh_user
  /\ ids (fst (run three_adds (fresh_user, []))) = [1; 2]
  /\ NoDup (ids (fst (run three_adds (fresh_user, [])))).
Proof.
  split; [reflexivity|]. split; [reflexivity|]. split; [reflexivity|].
  exact (proj2 (transaction_ids_unique_without_delete three_adds fresh_user []
                  eq_refl eq_refl)).
Defined.

(** ** Ids of savings goals *)

(** C6. [add_savings_goal] gives the new goal the id "length of the
    collection plus one" and appends it: it does so for every float target,
    and whenever it returns at all.  So after goals 1, 2 and 3 have been
    created and goal 3 has been taken out of the collection, the next goal
    is given id 3 again. *)
Theorem add_savings_goal_id_is_length_plus_one :
  (forall (user : User.t) (name : string) (target : pyfloat),
      exists g,
        User.add_savings_goal user name (VFloat target)
        = Ok (g, User.set_savings_goals user (User.savings_goals user ++ [g]))
        /\ SavingsGoal.goal_id g
           = Z.of_nat (List.length (User.savings_goals user)) + 1)
  /\
  (forall (user : User.t) (name : string) (target : pyval),
      match User.add_savings_goal user name target with
      | Ok (g, user') =>
          SavingsGoal.goal_id g
          = Z.of_nat (List.length (User.savings_goals user)) + 1
          /\ User.savings_goals user' = User.savings_goals user ++ [g]
      | Raise e => py_float target = Raise e
      end)
  /\
  (exists u3,
      three_goals = Ok u3
      /\ goal_ids u3 = [1; 2; 3]
      /\ let u2 :=
           User.set_savings_goals u3
             (filter (fun g => negb (SavingsGoal.goal_id g =? 3))
                     (User.savings_goals u3)) in
         goal_ids u2 = [1; 2]
         /\ exists g u4,
           User.add_savings_goal u2 "Bike" (VFloat (Fin 300)) = Ok (g, u4)
           /\ SavingsGoal.goal_id g = 3
           /\ goal_ids u4 = [1; 2; 3]).
Proof.
  split; [|split].
  - intros user name target. eexists. split; reflexivity.
  - intros user name target. unfold User.add_savings_goal, SavingsGoal.init.
    destruct (py_float target) as [f|e]; simpl; [split|]; reflexivity.
  - eexists. split; [reflexivity|]. split; [reflexivity|].
    split; [reflexivity|]. eexists. eexists.
    split; [reflexivity|]. split; reflexivity.
Qed.

(** ** Registration *)

Lemma assoc_setitem_same (k : string) (v : User.t) (d : list (string * User.t)) :
  assoc k (FinanceTracker.setitem k v d) = Some v.
Proof.
  induction d as [|[k' x] d IH]; simpl.
  - now rewrite String.eqb_refl.
  - destruct (String.eqb k k') eqn:E; simpl; rewrite E; [reflexivity|exact IH].
Qed.

Lemma assoc_setitem_other (k k0 : string) (v : User.t)
    (d : list (string * User.t)) :
  k0 <> k -> assoc k0 (FinanceTracker.setitem k v d) = assoc k0 d.
Proof.
  intros Hne. apply String.eqb_neq in Hne.
  induction d as [|[k' x] d IH]; simpl.
  - now rewrite Hne.
  - destruct (String.eqb k k') eqn:E; simpl.
    + apply String.eqb_eq in E. subst k'. now rewrite Hne.
    + now rewrite IH.
Qed.

Lemma User_from_dict_to_dict (user : User.t) :
  User.from_dict (User.to_dict user) = Ok user.
Proof.
  destruct user as [u p ts gs bs cs].
  unfold User.from_dict, User.to_dict. cbn -[mapM User.init].
  rewrite (mapM_map_inverse _ _ ts Transaction_round_trip).
  cbn -[mapM User.init].
  rewrite (mapM_map_inverse _ _ gs SavingsGoal_round_trip).
  cbn -[mapM User.init].
  rewrite (mapM_map_inverse _ _ bs Budget_round_trip).
  cbn -[mapM User.init].
  rewrite (mapM_map_inverse VStr as_str cs) by reflexivity.
  cbn -[User.init].
  unfold User.init, User.set_categories. now rewrite !or_empty_some.
Qed.

Lemma setitem_new (k : string) (v : User.t) (d : list (string * User.t)) :
  ~ In k (map fst d) -> FinanceTracker.setitem k v d = d ++ [(k, v)].
Proof.
  induction d as [|[k' x] d IH]; simpl; intros Hnot; [reflexivity|].
  destruct (String.eqb k k') eqn:E.
  - apply String.eqb_eq in E. exfalso. apply Hnot. now left.
  - rewrite IH; [reflexivity|]. intros H. apply Hnot. now right.
Qed.

Lemma assoc_In_keys {A : Type} (k : string) (d : list (string * A)) :
  assoc k d <> None <-> In k (map fst d).
Proof.
  induction d as [|[k' x] d IH]; simpl; [tauto|].
  destruct (String.eqb k k') eqn:E.
  - apply String.eqb_eq in E. subst. split; [now left|discriminate].
  - apply String.eqb_neq in E. rewrite IH. split; [now right|].
    intros [H|H]; [now symmetry in H|exact H].
Qed.

Lemma load_items_snapshot (us acc : list (string * User.t)) :
  NoDup (map fst acc ++ map fst us) ->
  FinanceTracker.load_items
    (map (fun kv => (fst kv, User.to_dict (snd kv))) us) acc
  = acc ++ us.
Proof.
  revert acc. induction us as [|[k u] us IH]; intros acc Hnd; simpl.
  - now rewrite app_nil_r.
  - rewrite User_from_dict_to_dict.
    assert (Hk : ~ In k (map fst acc)).
    { apply NoDup_remove_2 in Hnd. intros H. apply Hnd.
      apply in_app_iff. now left. }
    rewrite (setitem_new k u acc Hk), IH.
    + now rewrite <- app_assoc.
    + rewrite map_app. simpl. rewrite <- app_assoc. exact Hnd.
Qed.

Lemma assoc_snapshot (k : string) (us : list (string * User.t)) :
  assoc k (map (fun kv => (fst kv, User.to_dict (snd kv))) us)
  = option_map User.to_dict (assoc k us).
Proof.
  induction us as [|[k' u] us IH]; simpl; [reflexivity|].
  now destruct (String.eqb k k').
Qed.

(** C7. When the name is already a key of [users], [register_user] returns
    [False] and the registry, with its file, is what it was.  When the name
    is new it returns [True]; the registry then maps the name to a user with
    this name and password, no transactions, goals or budgets, and the six
    default categories; the other users and the session are untouched.
    The file, when it cannot be written, stays as it was.  When it can, it
    holds one record for each user, in the order of the registry and with
    the new user last: the record written out in [new_user_document] for
    the new user, the document form of each other user; and the program
    started again on this file has the users of the registry, the new one
    included. *)
Theorem register_user_spec
    (writable : bool) (self : FinanceTracker.t) (username password : string) :
  (assoc username (FinanceTracker.users self) <> None ->
   FinanceTracker.register_user writable self username password
   = (false, self))
  /\
  (assoc username (FinanceTracker.users self) = None ->
   let r := FinanceTracker.register_user writable self username password in
   fst r = true
   /\ assoc username (FinanceTracker.users (snd r))
      = Some (User.mk username password [] [] []
                ["Groceries"; "Bills"; "Entertainment"; "Transportation";
                 "Housing"; "Other"])
   /\ (forall k, k <> username ->
         assoc k (FinanceTracker.users (snd r))
         = assoc k (FinanceTracker.users self))
   /\ FinanceTracker.current_user (snd r) = FinanceTracker.current_user self
   /\ (writable = false ->
       FinanceTracker.data_file (snd r) = FinanceTracker.data_file self)
   /\ (writable = true ->
       exists d,
         FinanceTracker.data_file (snd r) = Some (VDict d)
         /\ map fst d = map fst (FinanceTracker.users self) ++ [username]
         /\ assoc username d = Some (new_user_document username password)
         /\ (forall k u,
               assoc k (FinanceTracker.users self) = Some u ->
               assoc k d = Some (User.to_dict u))
         /\ (NoDup (map fst (FinanceTracker.users self)) ->
             FinanceTracker.users
               (FinanceTracker.init (FinanceTracker.data_file (snd r)))
             = FinanceTracker.users (snd r)))).
Proof.
  unfold FinanceTracker.register_user. split.
  - intros Hin. destruct (assoc username (FinanceTracker.users self));
      [reflexivity|contradiction].
  - intros Hnew. rewrite Hnew.
    assert (Hnot : ~ In username (map fst (FinanceTracker.users self))).
    { intros Hin. apply assoc_In_keys in Hin. now apply Hin. }
    unfold FinanceTracker.save_data.
    split; [now destruct writable|].
    split; [destruct writable; apply assoc_setitem_same|].
    split; [intros k Hk; destruct writable; now apply assoc_setitem_other|].
    split; [now destruct writable|].
    split; [now intros ->|].
    intros ->. cbn [snd FinanceTracker.data_file FinanceTracker.users].
    unfold FinanceTracker.snapshot. eexists. split; [reflexivity|].
    rewrite (setitem_new _ _ _ Hnot).
    split; [|split; [|split]].
    + rewrite !map_app, map_map. cbn [map fst]. now rewrite map_ext with (g := fst).
    + rewrite assoc_snapshot.
      rewrite <- (setitem_new _ _ _ Hnot), assoc_setitem_same. reflexivity.
    + intros k u Hk. rewrite assoc_snapshot.
      assert (Hne : k <> username) by (intros ->; congruence).
      rewrite <- (setitem_new _ _ _ Hnot), (assoc_setitem_other _ _ _ _ Hne).
      now rewrite Hk.
    + intros Hnd. unfold FinanceTracker.init, FinanceTracker.load_data.
      cbn [FinanceTracker.data_file FinanceTracker.users].
      rewrite load_items_snapshot; [reflexivity|].
      cbn [map app]. rewrite map_app. cbn [map fst].
      apply NoDup_app; [exact Hnd|repeat constructor; intros []|].
      intros x Hx [<-|[]]. now apply Hnot.
Qed.

(** Registering "a" twice: the first call succeeds and writes the record
    of "a" with the password "p"; the second returns [False], and the
    password and the file stay. *)
Lemma register_user_spec_witness :
  let r1 := FinanceTracker.register_user true empty_tracker "a" "p" in
  let r2 := FinanceTracker.register_user true (snd r1) "a" "p2" in
  assoc "a" (FinanceTracker.users empty_tracker) = None
  /\ fst r1 = true
  /\ FinanceTracker.data_file (snd r1)
     = Some (VDict
         [ ("a",
            VDict [ ("username", VStr "a");
                    ("password", VStr "p");
                    ("transactions", VList []);
                    ("savings_goals", VList []);
                    ("budgets", VList []);
                    ("categories",
                     VList [ VStr "Groceries"; VStr "Bills";
                             VStr "Entertainment"; VStr "Transportation";
                             VStr "Housing"; VStr "Other" ]) ]) ])
  /\ assoc "a" (FinanceTracker.users (snd r1)) <> None
  /\ r2 = (false, snd r1)
  /\ option_map User.password (assoc "a" (FinanceTracker.users (snd r2)))
     = Some "p"
  /\ FinanceTracker.data_file (snd r2) = FinanceTracker.data_file (snd r1).
Proof.
  intros r1 r2.
  assert (H0 : assoc "a" (FinanceTracker.users empty_tracker) = None)
    by reflexivity.
  assert (H1 : assoc "a" (FinanceTracker.users (snd r1)) <> None)
    by discriminate.
  split; [exact H0|].
  split; [exact (proj1 (proj2 (register_user_spec true empty_tracker "a" "p")
                          H0))|].
  split; [reflexivity|].
  split; [exact H1|].
  split; [exact (proj1 (register_user_spec true (snd r1) "a" "p2") H1)|].
  split; reflexivity.
Defined.

(** ** Deleting a category *)

Lemma mem_true_iff (x : string) (l : list string) :
  mem x l = true <-> In x l.
Proof.
  unfold mem. rewrite existsb_exists. split.
  - intros [y [Hin Heq]]. apply String.eqb_eq in Heq. now subst.
  - intros Hin. exists x. split; [exact Hin|apply String.eqb_refl].
Qed.

(** [list.remove] takes out the first occurrence and nothing else. *)
Lemma list_remove_first (x : string) (l : list string) :
  In x l ->
  exists l1 l2,
    l = l1 ++ x :: l2 /\ ~ In x l1 /\ list_remove x l = l1 ++ l2.
Proof.
  induction l as [|y l IH]; intros Hin; [contradiction|]. simpl.
  destruct (String.eqb y x) eqn:E.
  - apply String.eqb_eq in E. subst y. exists [], l. now repeat split.
  - apply String.eqb_neq in E. destruct Hin as [Hyx|Hin]; [contradiction|].
    destruct (IH Hin) as (l1 & l2 & -> & Hnot & ->).
    exists (y :: l1), l2. repeat split. intros [Hyx|H1]; [now apply E|].
    now apply Hnot.
Qed.

Lemma Forall2_recategorised (category : string) (l : list Transaction.t) :
  Forall2 (recategorised category) l
    (map (fun tr =>
            if String.eqb (Transaction.category tr) category
            then Transaction.set_category tr "Other" else tr) l).
Proof.
  induction l as [|tr l IH]; simpl; constructor; [|exact IH].
  unfold recategorised. now destruct (String.eqb _ category).
Qed.

(** C8. Deleting a category of the user's list, once confirmed: every
    transaction of that category now has the category "Other" and is
    otherwise the same, the other transactions are unchanged, and the list
    keeps its length and order; the budgets that remain are exactly those of
    the other categories, in their order; the first occurrence of the name
    is taken out of the category list, so that a list without repetition no
    longer holds it; name, password and savings goals are unchanged. *)
Theorem handle_delete_category_spec
    (user : User.t) (category confirm : string) :
  In category (User.categories user) ->
  confirmed confirm = true ->
  let user' := handle_delete_category user category confirm in
  Forall2 (recategorised category)
    (User.transactions user) (User.transactions user')
  /\ (forall b, In b (User.budgets user') <->
                In b (User.budgets user) /\ Budget.category b <> category)
  /\ User.budgets user'
     = filter (fun b => negb (String.eqb (Budget.category b) category))
              (User.budgets user)
  /\ (exists l1 l2,
         User.categories user = l1 ++ category :: l2
         /\ ~ In category l1
         /\ User.categories user' = l1 ++ l2)
  /\ (NoDup (User.categories user) -> ~ In category (User.categories user'))
  /\ User.username user' = User.username user
  /\ User.password user' = User.password user
  /\ User.savings_goals user' = User.savings_goals user.
Proof.
  intros Hin Hconf user'. subst user'. unfold handle_delete_category.
  rewrite (proj2 (mem_true_iff _ _) Hin), Hconf. simpl.
  split; [apply Forall2_recategorised|].
  split.
  { intros b. rewrite filter_In, Bool.negb_true_iff, String.eqb_neq.
    reflexivity. }
  split; [reflexivity|].
  destruct (list_remove_first category _ Hin) as (l1 & l2 & Heq & Hnot & Hrem).
  split; [now exists l1, l2|].
  split; [|now repeat split].
  intros Hnd. rewrite Hrem. rewrite Heq in Hnd.
  now apply NoDup_remove_2 in Hnd.
Qed.

Lemma handle_delete_category_spec_witness :
  In "Bills" (User.categories bills_example)
  /\ confirmed "y" = true
  /\ User.transactions (handle_delete_category bills_example "Bills" "y")
     = [ Transaction.mk 1 "2024-01-05" (Fin 60) "Other" "expense" "power";
         Transaction.mk 2 "2024-01-06" (Fin 25) "Groceries" "expense" "market" ]
  /\ User.budgets (handle_delete_category bills_example "Bills" "y")
     = [ Budget.mk 2 "Groceries" (Fin 300) "monthly" ]
  /\ ~ In "Bills"
       (User.categories (handle_delete_category bills_example "Bills" "y")).
Proof.
  assert (Hin : In "Bills" (User.categories bills_example))
    by (right; left; reflexivity).
  assert (Hnd : NoDup (User.categories bills_example)).
  { repeat constructor; simpl; intuition discriminate. }
  split; [exact Hin|]. split; [reflexivity|].
  split; [reflexivity|]. split; [reflexivity|].
  destruct (handle_delete_category_spec bills_example "Bills" "y" Hin eq_refl)
    as (_ & _ & _ & _ & Hgone & _).
  exact (Hgone Hnd).
Defined.

(** ** The audit log *)

Lemma last_char_append (a b : string) (d : ascii) :
  last_char (a ++ b)%string d = last_char b (last_char a d).
Proof.
  revert d. induction a as [|x a IH]; intros d; simpl; [reflexivity|].
  apply IH.
Qed.

(** C9 fails.  A successful call with category "Bills" and description
    "rent" writes a line that ends with "Bills"; a line that ended with the
    description would end with the letter t. *)
Lemma log_line_names_category_not_description :
  exists tr user log,
    User.add_transaction "2024-01-15 10:00:00" [] fresh_user
      "20240115" "50" "Bills" "expense" "rent"
    = Ok (Some tr, user, log)
    /\ log = ["2024-01-15 10:00:00 - add_transaction: 20240115 $50 - Bills"
              %string]
    /\ forall a1,
         log <> [spec_log_line "2024-01-15 10:00:00" a1 "50" "rent"].
Proof.
  eexists. eexists. eexists. split; [reflexivity|]. split; [reflexivity|].
  intros a1 H. injection H as H.
  apply (f_equal (fun s => last_char s "x")) in H.
  unfold spec_log_line in H. rewrite !last_char_append in H.
  discriminate H.
Qed.

(** C9, amended.  A call that returns a transaction appends exactly one
    line, made of the timestamp, the name [add_transaction], the date
    argument, a dollar sign with the amount argument as it was typed, and
    the category argument; a call that returns [None] leaves the log as it
    was. *)
Theorem add_transaction_log
    (ts : string) (log : audit_log) (user : User.t)
    (date amount category transaction_type description : string) :
  match User.add_transaction ts log user date amount category
          transaction_type description with
  | Ok (Some _, _, log') =>
      log' = log ++ [(ts ++ " - add_transaction: " ++ date ++ " $" ++ amount
                        ++ " - " ++ category)%string]
  | Ok (None, user', log') => log' = log /\ user' = user
  | Raise _ => True
  end.
Proof.
  pose proof (add_transaction_cases ts log user date amount category
                transaction_type description) as H.
  destruct (User.add_transaction ts log user date amount category
              transaction_type description) as [[[[tr|] user'] log']|e];
    [|tauto|exact I].
  destruct H as (_ & _ & _ & _ & _ & _ & _ & ->). reflexivity.
Qed.

(** ** Adding funds to a savings goal *)



(** * Further properties of the code *)

(** ** Expenses by category *)

Arguments mem : simpl never.

Lemma mem_cons (x y : string) (l : list string) :
  mem x (y :: l) = String.eqb x y || mem x l.
Proof. reflexivity. Qed.

Lemma mem_false_iff (x : string) (l : list string) :
  mem x l = false <-> ~ In x l.
Proof.
  rewrite <- mem_true_iff. destruct (mem x l); split; intros H;
    try reflexivity; try discriminate; try (intros H'; discriminate).
  exfalso. now apply H.
Qed.

Lemma mem_app (x : string) (l1 l2 : list string) :
  mem x (l1 ++ l2) = mem x l1 || mem x l2.
Proof. unfold mem. apply existsb_app. Qed.

Lemma keys_dict_add (k : string) (v : pyfloat) (d : list (string * pyfloat)) :
  map fst (User.dict_add k v d)
  = if mem k (map fst d) then map fst d else map fst d ++ [k].
Proof.
  induction d as [|[k' x] d IH]; simpl; [reflexivity|].
  rewrite mem_cons. destruct (String.eqb k k'); simpl; [reflexivity|].
  rewrite IH. now destruct (mem k (map fst d)).
Qed.

Lemma first_seen_In (x : string) (l seen : list string) :
  In x (first_seen seen l) <-> In x l /\ ~ In x seen.
Proof.
  revert seen. induction l as [|y l IH]; intros seen; simpl; [tauto|].
  destruct (mem y seen) eqn:E.
  - apply mem_true_iff in E. rewrite IH. split.
    + intros [H1 H2]. auto.
    + intros [[->|H1] H2]; [contradiction|auto].
  - apply mem_false_iff in E. simpl. rewrite IH, in_app_iff. simpl. split.
    + intros [->|[H1 H2]]; [auto|]. split; [auto|]. intros H. apply H2. auto.
    + intros [[->|H1] H2]; [auto|].
      destruct (string_dec y x) as [->|Hne]; [auto|]. right. split; [auto|].
      intros [H|[H|[]]]; [now apply H2|now apply Hne].
Qed.

Lemma first_seen_NoDup (l seen : list string) : NoDup (first_seen seen l).
Proof.
  revert seen. induction l as [|y l IH]; intros seen; simpl; [constructor|].
  destruct (mem y seen); [apply IH|]. constructor; [|apply IH].
  rewrite first_seen_In, in_app_iff. intros [_ H]. apply H. right. now left.
Qed.

Lemma expenses_fold_keys (txs : list Transaction.t)
    (d : list (string * pyfloat)) :
  map fst
    (fold_left
       (fun d tr =>
          if String.eqb (Transaction.type tr) "expense"
          then User.dict_add (Transaction.category tr)
                 (Transaction.amount tr) d
          else d) txs d)
  = map fst d
    ++ first_seen (map fst d)
         (map Transaction.category (filter is_expense txs)).
Proof.
  revert d. induction txs as [|tr txs IH]; intros d; simpl.
  - now rewrite app_nil_r.
  - rewrite IH. unfold is_expense at 2.
    destruct (String.eqb (Transaction.type tr) "expense"); [|reflexivity].
    simpl. rewrite keys_dict_add.
    destruct (mem (Transaction.category tr) (map fst d)); [reflexivity|].
    now rewrite <- app_assoc.
Qed.

(** X1. The keys of [get_expenses_by_category] are the categories of the
    transactions of type "expense", each once, in the order in which they
    first occur in the transaction list; a category with income only is not
    a key. *)
Theorem expenses_by_category_keys (user : User.t) :
  let keys := map fst (User.get_expenses_by_category user) in
  keys = first_seen [] (expense_categories user)
  /\ NoDup keys
  /\ (forall c, In c keys <->
        exists tr, In tr (User.transactions user)
                   /\ Transaction.type tr = "expense"
                   /\ Transaction.category tr = c).
Proof.
  intros keys.
  assert (Hk : keys = first_seen [] (expense_categories user)).
  { subst keys. unfold User.get_expenses_by_category.
    now rewrite expenses_fold_keys. }
  split; [exact Hk|]. rewrite Hk. split; [apply first_seen_NoDup|].
  intros c. rewrite first_seen_In. unfold expense_categories.
  rewrite in_map_iff. split.
  - intros [[tr [Hc Hin]] _]. apply filter_In in Hin. destruct Hin as [Hin He].
    exists tr. split; [exact Hin|]. split; [|exact Hc].
    now apply String.eqb_eq.
  - intros [tr [Hin [Hty Hc]]]. split; [|intros []].
    exists tr. split; [exact Hc|]. apply filter_In. split; [exact Hin|].
    unfold is_expense. rewrite Hty. reflexivity.
Qed.

(** X2. The entry of a category in [get_expenses_by_category] is the
    running sum, started at 0, of the amounts of its expenses in the order
    of the transaction list; a category without expense has no entry. *)
Theorem expenses_by_category_value (user : User.t) (c : string) :
  assoc c (User.get_expenses_by_category user)
  = match category_expenses user c with
    | [] => None
    | a :: l => Some (fold_left fadd (a :: l) zero)
    end.
Proof.
  unfold User.get_expenses_by_category, category_expenses.
  rewrite expenses_fold_value. cbn [assoc].
  now destruct (map Transaction.amount _).
Qed.

Lemma expenses_example_map :
  User.get_expenses_by_category expenses_example
  = [("Bills", Fin (0 + 40 + 25)); ("Groceries", Fin (0 + 15))].
Proof. reflexivity. Qed.

(** ** Deleting a transaction by id *)

Lemma delete_transaction_cases (i : Z) (l : list Transaction.t) :
  match delete_transaction i l with
  | Some l' =>
      exists l1 tr l2,
        l = l1 ++ tr :: l2
        /\ Transaction.transaction_id tr = i
        /\ Forall (fun t => Transaction.transaction_id t <> i) l1
        /\ l' = l1 ++ l2
  | None => Forall (fun t => Transaction.transaction_id t <> i) l
  end.
Proof.
  induction l as [|tr l IH]; simpl; [constructor|].
  destruct (Transaction.transaction_id tr =? i) eqn:E.
  - apply Z.eqb_eq in E. exists [], tr, l. repeat split; [exact E|constructor].
  - apply Z.eqb_neq in E. destruct (delete_transaction i l) as [l'|]; simpl.
    + destruct IH as (l1 & t & l2 & -> & Hid & Hl1 & ->).
      exists (tr :: l1), t, l2. repeat split; [exact Hid|].
      now constructor.
    + now constructor.
Qed.

(** X3. Deleting by id takes out the first transaction with that id and
    nothing else: the transactions before and after it stay, in their
    order, and the rest of the user is untouched.  When no transaction has
    the id the user is unchanged. *)
Theorem handle_delete_transaction_spec (user : User.t) (i : Z) :
  let user' := handle_delete_transaction user i in
  (Forall (fun t => Transaction.transaction_id t <> i)
          (User.transactions user)
   /\ user' = user)
  \/
  (exists l1 tr l2,
      User.transactions user = l1 ++ tr :: l2
      /\ Transaction.transaction_id tr = i
      /\ Forall (fun t => Transaction.transaction_id t <> i) l1
      /\ user' = User.set_transactions user (l1 ++ l2)).
Proof.
  intros user'. subst user'. unfold handle_delete_transaction.
  pose proof (delete_transaction_cases i (User.transactions user)) as H.
  destruct (delete_transaction i (User.transactions user)) as [l'|].
  - right. destruct H as (l1 & tr & l2 & Heq & Hid & Hl1 & ->).
    now exists l1, tr, l2.
  - left. now split.
Qed.

(** ** Progress of a savings goal *)

(** X4. [get_progress_percentage] never divides by zero: it returns a
    value for every goal.  The value is 0 whenever the target is not
    greater than 0 (zero, negative or NaN), and it compares equal to 100
    when the current amount is the target, the target being a finite
    positive number. *)
Theorem get_progress_percentage_spec (g : SavingsGoal.t) :
  SavingsGoal.get_progress_percentage g <> None
  /\ (fgt (SavingsGoal.target_amount g) zero = false ->
      SavingsGoal.get_progress_percentage g = Some zero)
  /\ (forall q : Q,
        (0 < q)%Q ->
        SavingsGoal.target_amount g = Fin q ->
        SavingsGoal.current_amount g = Fin q ->
        exists v, SavingsGoal.get_progress_percentage g = Some v
                  /\ feq v (Fin 100) = true).
Proof.
  unfold SavingsGoal.get_progress_percentage. split; [|split].
  - destruct (SavingsGoal.target_amount g) as [y| | |] eqn:Et; simpl;
      try discriminate.
    + destruct (Qle_bool y 0) eqn:E; simpl; [discriminate|].
      apply Qle_bool_false in E. rewrite (Qeq_bool_false_of_pos y E).
      now destruct (SavingsGoal.current_amount g).
    + now destruct (SavingsGoal.current_amount g).
  - now intros ->.
  - intros q Hq -> ->. simpl.
    assert (E : Qle_bool q 0 = false) by now apply Qle_bool_false.
    rewrite E, (Qeq_bool_false_of_pos q Hq). simpl.
    eexists. split; [reflexivity|].
    rewrite (round64_compat (q / q) 1); [reflexivity|].
    field. intros H0. rewrite H0 in Hq. now apply Qlt_irrefl in Hq.
Qed.

Lemma get_progress_percentage_spec_witness :
  fgt (SavingsGoal.target_amount (SavingsGoal.mk 2 "Trip" (Fin 0) (Fin 30)))
      zero = false
  /\ SavingsGoal.get_progress_percentage
       (SavingsGoal.mk 2 "Trip" (Fin 0) (Fin 30)) = Some zero
  /\ (0 < 250)%Q
  /\ exists v, SavingsGoal.get_progress_percentage progress_example = Some v
               /\ feq v (Fin 100) = true.
Proof.
  assert (Hq : (0 < 250)%Q) by reflexivity.
  split; [reflexivity|].
  split; [exact (proj1 (proj2 (get_progress_percentage_spec
                                  (SavingsGoal.mk 2 "Trip" (Fin 0) (Fin 30))))
                   eq_refl)|].
  split; [exact Hq|].
  exact (proj2 (proj2 (get_progress_percentage_spec progress_example))
           250%Q Hq eq_refl eq_refl).
Defined.

(** ** Reading records: defaults and missing keys *)

(** X5. A record without its optional key is read with the default: a
    transaction without description gets the empty description, a budget
    without period the period "monthly", a savings goal without current
    amount the amount 0, and a user without collections and categories gets
    empty collections and the default categories.  Amounts go through
    [float()], so a number written as an integer or as text is accepted. *)
Theorem from_dict_defaults :
  (forall d i da a f c ty,
      assoc "id" d = Some (VInt i) -> assoc "date" d = Some (VStr da) ->
      assoc "amount" d = Some a -> py_float a = Ok f ->
      assoc "category" d = Some (VStr c) -> assoc "type" d = Some (VStr ty) ->
      assoc "description" d = None ->
      Transaction.from_dict (VDict d) = Ok (Transaction.mk i da f c ty ""))
  /\
  (forall d i c l f,
      assoc "id" d = Some (VInt i) -> assoc "category" d = Some (VStr c) ->
      assoc "limit" d = Some l -> py_float l = Ok f ->
      assoc "period" d = None ->
      Budget.from_dict (VDict d) = Ok (Budget.mk i c f "monthly"))
  /\
  (forall d i n t f,
      assoc "id" d = Some (VInt i) -> assoc "name" d = Some (VStr n) ->
      assoc "target_amount" d = Some t -> py_float t = Ok f ->
      assoc "current_amount" d = None ->
      SavingsGoal.from_dict (VDict d) = Ok (SavingsGoal.mk i n f (Fin 0)))
  /\
  (forall d u p,
      assoc "username" d = Some (VStr u) -> assoc "password" d = Some (VStr p) ->
      assoc "transactions" d = None -> assoc "savings_goals" d = None ->
      assoc "budgets" d = None -> assoc "categories" d = None ->
      User.from_dict (VDict d)
      = Ok (User.mk u p [] [] [] User.default_categories)).
Proof.
  split; [|split; [|split]].
  - intros d i da a f c ty Hi Hd Ha Hf Hc Ht Hde.
    unfold Transaction.from_dict, Transaction.init, getitem, get.
    rewrite Hi, Hd, Ha, Hc, Ht, Hde. simpl. now rewrite Hf.
  - intros d i c l f Hi Hc Hl Hf Hp.
    unfold Budget.from_dict, Budget.init, getitem, get.
    rewrite Hi, Hc, Hl, Hp. simpl. now rewrite Hf.
  - intros d i n t f Hi Hn Ht Hf Hc.
    unfold SavingsGoal.from_dict, SavingsGoal.init, getitem, get.
    rewrite Hi, Hn, Ht, Hc. simpl. now rewrite Hf.
  - intros d u p Hu Hp Ht Hg Hb Hc.
    unfold User.from_dict, getitem, get, contains.
    rewrite Hu, Hp, Ht, Hg, Hb, Hc. reflexivity.
Qed.

Lemma from_dict_defaults_witness :
  Transaction.from_dict
    (VDict [("id", VInt 7); ("date", VStr "2024-02-01"); ("amount", VInt 12);
            ("category", VStr "Bills"); ("type", VStr "expense")])
  = Ok (Transaction.mk 7 "2024-02-01" (Fin 12) "Bills" "expense" "")
  /\ Budget.from_dict
       (VDict [("limit", VStr "99.5"); ("category", VStr "Bills");
               ("id", VInt 1)])
     = Ok (Budget.mk 1 "Bills" (Fin (199 # 2)) "monthly")
  /\ SavingsGoal.from_dict
       (VDict [("id", VInt 3); ("name", VStr "Car");
               ("target_amount", VFloat (Fin 5000))])
     = Ok (SavingsGoal.mk 3 "Car" (Fin 5000) (Fin 0))
  /\ User.from_dict (VDict [("password", VStr "p"); ("username", VStr "a")])
     = Ok (User.mk "a" "p" [] [] [] User.default_categories).
Proof.
  destruct from_dict_defaults as (Ht & Hb & Hg & Hu).
  split; [|split; [|split]].
  - apply (Ht _ 7 "2024-02-01" (VInt 12) (Fin 12) "Bills" "expense");
      reflexivity.
  - apply (Hb _ 1 "Bills" (VStr "99.5") (Fin (199 # 2))); reflexivity.
  - apply (Hg _ 3 "Car" (VFloat (Fin 5000)) (Fin 5000)); reflexivity.
  - apply (Hu _ "a" "p"); reflexivity.
Defined.

(** X6. A record that lacks a required key is turned down with a
    [KeyError] that names the first missing key, in the order in which
    [from_dict] reads them. *)
Theorem from_dict_missing_key (d : list (string * pyval)) (k : string) :
  (first_missing ["id"; "date"; "amount"; "category"; "type"] d = Some k ->
   Transaction.from_dict (VDict d) = Raise (KeyError k))
  /\ (first_missing ["id"; "name"; "target_amount"] d = Some k ->
      SavingsGoal.from_dict (VDict d) = Raise (KeyError k))
  /\ (first_missing ["id"; "category"; "limit"] d = Some k ->
      Budget.from_dict (VDict d) = Raise (KeyError k)).
Proof.
  unfold first_missing, Transaction.from_dict, SavingsGoal.from_dict,
    Budget.from_dict, getitem. simpl.
  split; [|split]; intros H;
    repeat match type of H with
      | context [assoc ?key d] =>
          destruct (assoc key d); simpl;
          [|injection H as <-; reflexivity]
      end; discriminate H.
Qed.

Lemma from_dict_missing_key_witness :
  first_missing ["id"; "date"; "amount"; "category"; "type"]
    [("id", VInt 1); ("date", VStr "2024-02-01"); ("type", VStr "income")]
  = Some "amount"
  /\ Transaction.from_dict
       (VDict [("id", VInt 1); ("date", VStr "2024-02-01");
               ("type", VStr "income")])
     = Raise (KeyError "amount").
Proof.
  split; [reflexivity|].
  exact (proj1 (from_dict_missing_key
                  [("id", VInt 1); ("date", VStr "2024-02-01");
                   ("type", VStr "income")] "amount") eq_refl).
Defined.

(** ** The registry: loading, saving, sessions *)

Lemma setitem_keys (k : string) (v : User.t) (d : list (string * User.t)) :
  map fst (FinanceTracker.setitem k v d)
  = if mem k (map fst d) then map fst d else map fst d ++ [k].
Proof.
  induction d as [|[k' x] d IH]; simpl; [reflexivity|].
  rewrite mem_cons. destruct (String.eqb k k'); simpl; [reflexivity|].
  rewrite IH. now destruct (mem k (map fst d)).
Qed.

Lemma setitem_keys_NoDup (k : string) (v : User.t)
    (d : list (string * User.t)) :
  NoDup (map fst d) -> NoDup (map fst (FinanceTracker.setitem k v d)).
Proof.
  intros Hnd. rewrite setitem_keys. destruct (mem k (map fst d)) eqn:E;
    [exact Hnd|].
  apply mem_false_iff in E. apply NoDup_app; [exact Hnd|repeat constructor;
    intros []|].
  intros x Hx [<-|[]]. now apply E.
Qed.

(** X7. Starting the program again on the file written by [save_data]
    gives back every user, under the same name, in the same order and with
    all its data; nobody is logged in. *)
Theorem save_then_load (self : FinanceTracker.t) :
  NoDup (usernames self) ->
  let restarted :=
    FinanceTracker.init
      (FinanceTracker.data_file (FinanceTracker.save_data true self)) in
  FinanceTracker.users restarted = FinanceTracker.users self
  /\ FinanceTracker.current_user restarted = None.
Proof.
  intros Hnd restarted. subst restarted.
  unfold FinanceTracker.init, FinanceTracker.load_data,
    FinanceTracker.save_data, FinanceTracker.snapshot. simpl.
  split; [|reflexivity]. now rewrite load_items_snapshot.
Qed.

Lemma save_then_load_witness :
  let self := registry_run session_ops empty_tracker in
  NoDup (usernames self)
  /\ usernames self = ["ann"; "bob"]
  /\ FinanceTracker.users
       (FinanceTracker.init
          (FinanceTracker.data_file (FinanceTracker.save_data true self)))
     = FinanceTracker.users self.
Proof.
  intros self.
  assert (Hnd : NoDup (usernames self)).
  { repeat constructor; simpl; intuition discriminate. }
  split; [exact Hnd|]. split; [reflexivity|].
  exact (proj1 (save_then_load self Hnd)).
Defined.

Lemma load_items_stops (items1 items2 : list (string * pyval)) (k : string)
    (bad : pyval) (e : exn) (us : list (string * User.t)) :
  User.from_dict bad = Raise e ->
  FinanceTracker.load_items (items1 ++ (k, bad) :: items2) us
  = FinanceTracker.load_items items1 us.
Proof.
  intros Hbad. revert us.
  induction items1 as [|[k1 d1] items1 IH]; intros us; simpl.
  - now rewrite Hbad.
  - destruct (User.from_dict d1); [apply IH|reflexivity].
Qed.

(** X8. [load_data] never stops the program and loads what it can: with
    no file, or a file that is not an object, there are no users; and a
    record that [User.from_dict] turns down ends the loading, so that the
    users before it are loaded and those after it are not. *)
Theorem load_data_partial :
  FinanceTracker.users (FinanceTracker.init None) = []
  /\ (forall doc,
        match doc with
        | VDict _ => True
        | _ => FinanceTracker.users (FinanceTracker.init (Some doc)) = []
        end)
  /\ (forall items1 items2 k bad e,
        User.from_dict bad = Raise e ->
        FinanceTracker.users
          (FinanceTracker.init (Some (VDict (items1 ++ (k, bad) :: items2))))
        = FinanceTracker.users (FinanceTracker.init (Some (VDict items1)))).
Proof.
  split; [reflexivity|]. split; [now intros []|].
  intros items1 items2 k bad e Hbad.
  unfold FinanceTracker.init, FinanceTracker.load_data. simpl.
  now apply load_items_stops with (e := e).
Qed.

Lemma load_data_partial_witness :
  User.from_dict (VDict [("username", VStr "bob")])
  = Raise (KeyError "password")
  /\ usernames (FinanceTracker.init (Some damaged_file)) = ["ann"].
Proof.
  assert (Hbad : User.from_dict (VDict [("username", VStr "bob")])
                 = Raise (KeyError "password")) by reflexivity.
  split; [exact Hbad|].
  refine (eq_trans
            (f_equal (map fst)
               (proj2 (proj2 load_data_partial)
                  [("ann", User.to_dict (User.init "ann" "pw1" None None None))]
                  [("cy", User.to_dict (User.init "cy" "pw3" None None None))]
                  "bob" _ _ Hbad)) _).
  reflexivity.
Defined.

(** X9. [login] succeeds exactly when the name is registered and the
    password is the one stored for it.  A failed login changes nothing; a
    successful one makes this user the current one and changes nothing
    else, whoever was logged in before. *)
Theorem login_spec (self : FinanceTracker.t) (username password : string) :
  let r := FinanceTracker.login self username password in
  (fst r = true <->
   exists user, assoc username (FinanceTracker.users self) = Some user
                /\ User.password user = password)
  /\ (fst r = false -> snd r = self)
  /\ (fst r = true ->
      snd r = FinanceTracker.mk (FinanceTracker.users self) (Some username)
                (FinanceTracker.data_file self)).
Proof.
  intros r. subst r. unfold FinanceTracker.login, User.authenticate.
  destruct (assoc username (FinanceTracker.users self)) as [user|]; simpl.
  - destruct (String.eqb (User.password user) password) eqn:E; simpl.
    + apply String.eqb_eq in E. split; [|split; [discriminate|reflexivity]].
      split; [|reflexivity]. intros _. now exists user.
    + apply String.eqb_neq in E. split; [|split; [reflexivity|discriminate]].
      split; [discriminate|]. intros [u [Hu Hp]]. injection Hu as <-.
      contradiction.
  - split; [|split; [reflexivity|discriminate]].
    split; [discriminate|]. intros [u [Hu _]]. discriminate.
Qed.

Lemma login_spec_witness :
  let self := snd (FinanceTracker.register_user true empty_tracker "ann" "pw1") in
  fst (FinanceTracker.login self "ann" "pw1") = true
  /\ fst (FinanceTracker.login self "ann" "PW1") = false
  /\ snd (FinanceTracker.login self "ann" "PW1") = self
  /\ FinanceTracker.current_user (snd (FinanceTracker.login self "ann" "pw1"))
     = Some "ann".
Proof.
  intros self.
  assert (H1 : fst (FinanceTracker.login self "ann" "pw1") = true)
    by reflexivity.
  assert (H2 : fst (FinanceTracker.login self "ann" "PW1") = false)
    by reflexivity.
  split; [exact H1|]. split; [exact H2|].
  split; [exact (proj1 (proj2 (login_spec self "ann" "PW1")) H2)|].
  exact (f_equal FinanceTracker.current_user
           (proj2 (proj2 (login_spec self "ann" "pw1")) H1)).
Defined.

Lemma login_after_register (writable : bool) (self : FinanceTracker.t)
    (username password p : string) :
  assoc username (FinanceTracker.users self) = None ->
  let registered :=
    snd (FinanceTracker.register_user writable self username password) in
  FinanceTracker.login registered username p
  = if String.eqb password p
    then (true,
          FinanceTracker.mk (FinanceTracker.users registered) (Some username)
            (FinanceTracker.data_file registered))
    else (false, registered).
Proof.
  intros Hnew. unfold FinanceTracker.register_user. rewrite Hnew.
  unfold FinanceTracker.login, FinanceTracker.save_data, User.authenticate.
  destruct writable; simpl; rewrite assoc_setitem_same; simpl;
    now destruct (String.eqb password p).
Qed.

(** X10. After the registration of a new name, exactly the password given
    at registration logs this user in; that login opens a session, which
    [logout] ends, and a second [logout] finds no session.  Registering a
    name that is taken leaves every login as it was. *)
Theorem register_then_login
    (writable : bool) (self : FinanceTracker.t) (username password : string) :
  let registered :=
    snd (FinanceTracker.register_user writable self username password) in
  (assoc username (FinanceTracker.users self) = None ->
   (forall p, fst (FinanceTracker.login registered username p) = true
              <-> p = password)
   /\ let logged := snd (FinanceTracker.login registered username password) in
      FinanceTracker.is_logged_in logged = true
      /\ fst (FinanceTracker.logout logged) = true
      /\ FinanceTracker.is_logged_in (snd (FinanceTracker.logout logged))
         = false
      /\ fst (FinanceTracker.logout (snd (FinanceTracker.logout logged)))
         = false)
  /\ (assoc username (FinanceTracker.users self) <> None ->
      forall u p, FinanceTracker.login registered u p
                  = FinanceTracker.login self u p).
Proof.
  intros registered. split.
  - intros Hnew. subst registered. split.
    + intros p. rewrite (login_after_register _ _ _ _ p Hnew).
      destruct (String.eqb password p) eqn:E; simpl.
      * apply String.eqb_eq in E. now split.
      * apply String.eqb_neq in E. split; [discriminate|].
        intros ->. contradiction.
    + rewrite (login_after_register _ _ _ _ password Hnew), String.eqb_refl.
      simpl. now repeat split.
  - intros Hold u p. subst registered. unfold FinanceTracker.register_user.
    destruct (assoc username (FinanceTracker.users self));
      [reflexivity|contradiction].
Qed.

Lemma register_then_login_witness :
  let registered :=
    snd (FinanceTracker.register_user true empty_tracker "ann" "pw1") in
  assoc "ann" (FinanceTracker.users empty_tracker) = None
  /\ (fst (FinanceTracker.login registered "ann" "pw1") = true <-> "pw1" = "pw1")
  /\ assoc "ann" (FinanceTracker.users registered) <> None
  /\ FinanceTracker.login
       (snd (FinanceTracker.register_user true registered "ann" "other"))
       "ann" "other"
     = FinanceTracker.login registered "ann" "other".
Proof.
  intros registered.
  assert (H0 : assoc "ann" (FinanceTracker.users empty_tracker) = None)
    by reflexivity.
  assert (H1 : assoc "ann" (FinanceTracker.users registered) <> None)
    by discriminate.
  split; [exact H0|].
  split; [exact (proj1 (proj1 (register_then_login true empty_tracker
                                 "ann" "pw1") H0) "pw1")|].
  split; [exact H1|].
  exact (proj2 (register_then_login true registered "ann" "other") H1
           "ann" "other").
Defined.

Lemma registry_step_ok (self : FinanceTracker.t) (o : registry_op) :
  registry_ok self -> registry_ok (registry_step self o).
Proof.
  unfold registry_ok, usernames. intros [Hnd Hs].
  destruct o as [w u p|u p|]; simpl.
  - unfold FinanceTracker.register_user.
    destruct (assoc u (FinanceTracker.users self)) eqn:E; simpl;
      [now split|].
    unfold FinanceTracker.save_data. destruct w; simpl;
      (split; [now apply setitem_keys_NoDup|]);
      (destruct (FinanceTracker.current_user self) as [k|]; [|exact I]);
      rewrite setitem_keys;
      (destruct (mem u (map fst (FinanceTracker.users self)));
         [exact Hs|apply in_app_iff; now left]).
  - unfold FinanceTracker.login.
    destruct (assoc u (FinanceTracker.users self)) eqn:E; simpl;
      [|now split].
    destruct (User.authenticate t p); simpl; [|now split].
    split; [exact Hnd|]. apply assoc_In_keys. rewrite E. discriminate.
  - unfold FinanceTracker.logout.
    destruct (FinanceTracker.current_user self) eqn:E; simpl;
      [now split|rewrite E; now split].
Qed.

Lemma load_items_keys_NoDup (items : list (string * pyval))
    (us : list (string * User.t)) :
  NoDup (map fst us) -> NoDup (map fst (FinanceTracker.load_items items us)).
Proof.
  revert us. induction items as [|[k d] items IH]; intros us Hnd; simpl;
    [exact Hnd|].
  destruct (User.from_dict d); [|exact Hnd].
  apply IH. now apply setitem_keys_NoDup.
Qed.

(** X11. Whatever file the program starts from and whatever sequence of
    registrations, logins and logouts follows, no username is registered
    twice and the current user, when there is one, is a registered user. *)
Theorem registry_invariant (file : option pyval) (ops : list registry_op) :
  registry_ok (registry_run ops (FinanceTracker.init file)).
Proof.
  assert (H0 : registry_ok (FinanceTracker.init file)).
  { unfold registry_ok, usernames, FinanceTracker.init,
      FinanceTracker.load_data. simpl.
    destruct file as [[z|f|s|l|items]|]; simpl;
      try (split; [constructor|exact I]).
    split; [|exact I]. apply load_items_keys_NoDup. constructor. }
  unfold registry_run. revert H0. generalize (FinanceTracker.init file).
  induction ops as [|o ops IH]; intros self H; simpl; [exact H|].
  apply IH. now apply registry_step_ok.
Qed.

Lemma registry_step_keeps_account (self : FinanceTracker.t) (o : registry_op)
    (k : string) (user : User.t) :
  assoc k (FinanceTracker.users self) = Some user ->
  assoc k (FinanceTracker.users (registry_step self o)) = Some user.
Proof.
  intros Hk. destruct o as [w u p|u p|]; simpl.
  - unfold FinanceTracker.register_user.
    destruct (assoc u (FinanceTracker.users self)) eqn:E; simpl; [exact Hk|].
    unfold FinanceTracker.save_data. destruct w; simpl;
      (rewrite assoc_setitem_other; [exact Hk|]);
      intros ->; rewrite Hk in E; discriminate.
  - unfold FinanceTracker.login.
    destruct (assoc u (FinanceTracker.users self)); simpl; [|exact Hk].
    now destruct (User.authenticate t p).
  - unfold FinanceTracker.logout.
    now destruct (FinanceTracker.current_user self).
Qed.

(** X12. No sequence of registrations, logins and logouts removes or
    changes an account: a name that is registered stays registered with
    the same password and the same data. *)
Theorem accounts_are_kept (ops : list registry_op) (self : FinanceTracker.t)
    (k : string) (user : User.t) :
  assoc k (FinanceTracker.users self) = Some user ->
  assoc k (FinanceTracker.users (registry_run ops self)) = Some user.
Proof.
  unfold registry_run. revert self.
  induction ops as [|o ops IH]; intros self Hk; simpl; [exact Hk|].
  apply IH. now apply registry_step_keeps_account.
Qed.

Lemma accounts_are_kept_witness :
  let self := snd (FinanceTracker.register_user true empty_tracker "ann" "pw1") in
  assoc "ann" (FinanceTracker.users self)
  = Some (User.init "ann" "pw1" None None None)
  /\ assoc "ann"
       (FinanceTracker.users
          (registry_run (RRegister true "ann" "stolen" :: session_ops) self))
     = Some (User.init "ann" "pw1" None None None).
Proof.
  intros self.
  assert (H : assoc "ann" (FinanceTracker.users self)
              = Some (User.init "ann" "pw1" None None None)) by reflexivity.
  split; [exact H|].
  exact (accounts_are_kept (RRegister true "ann" "stolen" :: session_ops)
           self "ann" _ H).
Defined.

(** ** What the menus keep true of a user *)

Lemma menu_ok_same (user user' : User.t) :
  User.categories user' = User.categories user ->
  User.budgets user' = User.budgets user ->
  menu_ok user -> menu_ok user'.
Proof.
  unfold menu_ok, budget_categories. intros -> ->. tauto.
Qed.

Lemma menu_ok_add_category (user : User.t) (c : string) :
  menu_ok user -> menu_ok (handle_add_category user c).
Proof.
  unfold handle_add_category. intros H.
  destruct (mem c (User.categories user)) eqn:E; [exact H|].
  apply mem_false_iff in E. destruct H as (Hc & Hi & Hb & Hl).
  unfold menu_ok, budget_categories in *. simpl. repeat split; auto.
  - apply NoDup_app; [exact Hc|repeat constructor; intros []|].
    intros x Hx [<-|[]]. now apply E.
  - intros x Hx. apply in_app_iff. left. now apply Hi.
Qed.

Lemma add_transaction_keeps (ts : string) (log : audit_log) (user : User.t)
    (d a c ty de : string) (r : option Transaction.t) (user' : User.t)
    (log' : audit_log) :
  User.add_transaction ts log user d a c ty de = Ok (r, user', log') ->
  User.categories user' = User.categories user
  /\ User.budgets user' = User.budgets user
  /\ User.savings_goals user' = User.savings_goals user.
Proof.
  intros H. pose proof (add_transaction_cases ts log user d a c ty de) as Hc.
  rewrite H in Hc. destruct r as [tr|].
  - destruct Hc as (_ & _ & _ & _ & _ & _ & -> & _). now repeat split.
  - destruct Hc as [-> _]. now repeat split.
Qed.

Lemma menu_ok_add_transaction (ts today : string) (log : audit_log)
    (user : User.t) (ch d a cc add de : string) (user' : User.t)
    (log' : audit_log) (saved : bool) :
  handle_add_transaction ts today log user ch d a cc add de
  = Ok (user', log', saved) ->
  menu_ok user -> menu_ok user'.
Proof.
  unfold handle_add_transaction. intros H Hok.
  destruct (String.eqb ch "1" || String.eqb ch "2");
    [|injection H as <- _ _; exact Hok].
  set (cat := select_category (User.categories user) cc) in *.
  assert (Hstep : forall u1 c1,
    menu_ok u1 ->
    (r <- User.add_transaction ts log u1
            (if String.eqb d "" then today else d) a c1
            (if String.eqb ch "1" then "income" else "expense") de ;;
     match r with
     | (Some _, user, log) => Ok (user, log, true)
     | (None, user, log) => Ok (user, log, false)
     end) = Ok (user', log', saved) ->
    menu_ok user').
  { intros u1 c1 Hu1 Hr.
    destruct (User.add_transaction ts log u1
                (if String.eqb d "" then today else d) a c1
                (if String.eqb ch "1" then "income" else "expense") de)
      as [[[r u2] l2]|e] eqn:Ha; simpl in Hr; [|discriminate].
    apply add_transaction_keeps in Ha. destruct Ha as (Hc & Hb & _).
    assert (u2 = user') by (destruct r; now injection Hr as <- _ _).
    subst u2. now apply (menu_ok_same u1). }
  destruct (mem cat (User.categories user)) eqn:E.
  - now apply (Hstep user cat).
  - destruct (confirmed add).
    + pose proof (menu_ok_add_category user cat Hok) as Hadd.
      unfold handle_add_category in Hadd. rewrite E in Hadd.
      exact (Hstep _ cat Hadd H).
    + now apply (Hstep user "Other").
Qed.

Lemma menu_ok_delete_transaction (user : User.t) (i : string) :
  menu_ok user -> menu_ok (handle_delete_transaction_input user i).
Proof.
  unfold handle_delete_transaction_input, handle_delete_transaction.
  destruct (int_of_string i); [|auto].
  destruct (delete_transaction a (User.transactions user)); [|auto].
  now apply menu_ok_same.
Qed.

Lemma menu_ok_add_savings_goal (user : User.t) (n t : string) :
  menu_ok user -> menu_ok (handle_add_savings_goal user n t).
Proof.
  unfold handle_add_savings_goal, User.add_savings_goal, SavingsGoal.init.
  destruct (float_of_string t) as [f|]; [|auto].
  destruct (fle f zero); [auto|]. simpl. now apply menu_ok_same.
Qed.

Lemma menu_ok_add_funds (user : User.t) (i : string) (amounts : nat -> string) :
  menu_ok user -> menu_ok (handle_add_funds user i amounts).
Proof.
  unfold handle_add_funds. destruct (int_of_string i); [|auto].
  now apply menu_ok_same.
Qed.

Lemma update_budget_limit_categories (c : string) (l : pyfloat)
    (bs : list Budget.t) :
  map Budget.category (update_budget_limit c l bs) = map Budget.category bs.
Proof.
  induction bs as [|b bs IH]; simpl; [reflexivity|].
  destruct (String.eqb (Budget.category b) c); simpl; [reflexivity|].
  now rewrite IH.
Qed.

Lemma update_budget_limit_Forall (P : pyfloat -> Prop) (c : string)
    (l : pyfloat) (bs : list Budget.t) :
  P l -> Forall (fun b => P (Budget.limit b)) bs ->
  Forall (fun b => P (Budget.limit b)) (update_budget_limit c l bs).
Proof.
  intros Hl. induction bs as [|b bs IH]; simpl; intros H; [constructor|].
  inversion H as [|? ? Hb Hbs]; subst.
  destruct (String.eqb (Budget.category b) c); constructor; auto.
Qed.

Lemma has_budget_false (c : string) (bs : list Budget.t) :
  has_budget c bs = false -> ~ In c (map Budget.category bs).
Proof.
  unfold has_budget. intros H Hin. apply in_map_iff in Hin.
  destruct Hin as [b [Hc Hb]].
  assert (Ht : existsb (fun b => String.eqb (Budget.category b) c) bs = true).
  { apply existsb_exists. exists b. split; [exact Hb|].
    rewrite Hc. apply String.eqb_refl. }
  rewrite H in Ht. discriminate.
Qed.

Lemma menu_ok_add_budget (user : User.t) (cc add l up pe : string) :
  menu_ok user -> menu_ok (handle_add_budget user cc add l up pe).
Proof.
  unfold handle_add_budget. intros Hok.
  set (cat := select_category (User.categories user) cc).
  pose proof (menu_ok_add_category user cat Hok) as Hadd.
  unfold handle_add_category in Hadd.
  destruct (mem cat (User.categories user)) eqn:E; simpl.
  - (* a listed category *)
    apply mem_true_iff in E.
    destruct (float_of_string l) as [f|]; [|exact Hok].
    destruct (fle f zero) eqn:Ef; [exact Hok|].
    destruct Hok as (Hc & Hi & Hb & Hl).
    destruct (has_budget cat (User.budgets user)) eqn:Eb.
    + destruct (confirmed up); [|now repeat split].
      unfold menu_ok, budget_categories in *. simpl.
      rewrite update_budget_limit_categories. repeat split; auto.
      now apply (update_budget_limit_Forall (fun x => fle x zero = false)).
    + apply has_budget_false in Eb.
      unfold User.add_budget, Budget.init. simpl.
      unfold menu_ok, budget_categories in *. simpl.
      rewrite map_app. simpl. repeat split; auto.
      * intros x Hx. apply in_app_iff in Hx. destruct Hx as [Hx|[<-|[]]];
          [now apply Hi|exact E].
      * apply NoDup_app; [exact Hb|repeat constructor; intros []|].
        intros x Hx [<-|[]]. now apply Eb.
      * apply Forall_app. split; [exact Hl|]. now repeat constructor.
  - (* a new category *)
    destruct (confirmed add); simpl; [|exact Hok].
    set (user1 := User.set_categories user (User.categories user ++ [cat]))
      in *.
    destruct (float_of_string l) as [f|]; [|exact Hadd].
    destruct (fle f zero) eqn:Ef; [exact Hadd|].
    destruct Hadd as (Hc & Hi & Hb & Hl).
    unfold budget_categories in *.
    change (User.budgets user1) with (User.budgets user) in *.
    destruct (has_budget cat (User.budgets user)) eqn:Eb.
    + destruct (confirmed up); [|now repeat split].
      unfold menu_ok, budget_categories in *. simpl.
      rewrite update_budget_limit_categories. repeat split; auto.
      now apply (update_budget_limit_Forall (fun x => fle x zero = false)).
    + apply has_budget_false in Eb.
      unfold User.add_budget, Budget.init. simpl.
      unfold menu_ok, budget_categories in *. simpl in *.
      rewrite map_app. simpl. repeat split; auto.
      * intros x Hx. apply in_app_iff in Hx. destruct Hx as [Hx|[<-|[]]];
          [now apply Hi|]. apply in_app_iff. right. now left.
      * apply NoDup_app; [exact Hb|repeat constructor; intros []|].
        intros x Hx [<-|[]]. now apply Eb.
      * apply Forall_app. split; [exact Hl|]. now repeat constructor.
Qed.

Lemma delete_budget_cases (i : Z) (l : list Budget.t) :
  match delete_budget i l with
  | Some l' =>
      exists l1 b l2,
        l = l1 ++ b :: l2
        /\ Budget.budget_id b = i
        /\ Forall (fun x => Budget.budget_id x <> i) l1
        /\ l' = l1 ++ l2
  | None => Forall (fun x => Budget.budget_id x <> i) l
  end.
Proof.
  induction l as [|b l IH]; simpl; [constructor|].
  destruct (Budget.budget_id b =? i) eqn:E.
  - apply Z.eqb_eq in E. exists [], b, l. repeat split; [exact E|constructor].
  - apply Z.eqb_neq in E. destruct (delete_budget i l) as [l'|]; simpl.
    + destruct IH as (l1 & x & l2 & -> & Hid & Hl1 & ->).
      exists (b :: l1), x, l2. repeat split; [exact Hid|].
      now constructor.
    + now constructor.
Qed.

Lemma menu_ok_delete_budget (user : User.t) (i : string) :
  menu_ok user -> menu_ok (handle_delete_budget user i).
Proof.
  unfold handle_delete_budget. intros Hok.
  destruct (User.budgets user) as [|b0 bs] eqn:Ebs; [exact Hok|].
  destruct (int_of_string i) as [n|]; [|exact Hok].
  pose proof (delete_budget_cases n (b0 :: bs)) as H.
  destruct (delete_budget n (b0 :: bs)) as [l'|]; [|exact Hok].
  destruct H as (l1 & b & l2 & Heq & _ & _ & ->).
  destruct Hok as (Hc & Hi & Hb & Hl).
  unfold menu_ok, budget_categories in *. rewrite Ebs, Heq in *. simpl.
  rewrite map_app in *. simpl in *. repeat split.
  - exact Hc.
  - intros x Hx. apply Hi. apply in_app_iff in Hx. apply in_app_iff.
    destruct Hx; [now left|right; now right].
  - now apply NoDup_remove_1 in Hb.
  - apply Forall_app in Hl. destruct Hl as [H1 H2].
    inversion H2; subst. apply Forall_app. now split.
Qed.

Lemma NoDup_insert (a : string) (l1 l2 : list string) :
  NoDup (l1 ++ l2) -> ~ In a (l1 ++ l2) -> NoDup (l1 ++ a :: l2).
Proof.
  intros Hnd Hnot. apply (NoDup_Add (Add_app a l1 l2)). now split.
Qed.

Lemma list_replace_first (x y : string) (l : list string) :
  In x l ->
  exists l1 l2,
    l = l1 ++ x :: l2 /\ ~ In x l1 /\ list_replace x y l = l1 ++ y :: l2.
Proof.
  induction l as [|z l IH]; intros Hin; [contradiction|]. simpl.
  destruct (String.eqb z x) eqn:E.
  - apply String.eqb_eq in E. subst z. exists [], l. now repeat split.
  - apply String.eqb_neq in E. destruct Hin as [Hzx|Hin]; [contradiction|].
    destruct (IH Hin) as (l1 & l2 & -> & Hnot & ->).
    exists (z :: l1), l2. repeat split. intros [Hzx|H1]; [now apply E|].
    now apply Hnot.
Qed.

Lemma rename_budget_categories (o n : string) (bs : list Budget.t) :
  map Budget.category
    (map (fun b => if String.eqb (Budget.category b) o
                   then Budget.set_category b n else b) bs)
  = map (renamed o n) (map Budget.category bs).
Proof.
  induction bs as [|b bs IH]; simpl; [reflexivity|]. rewrite IH.
  unfold renamed. now destruct (String.eqb (Budget.category b) o).
Qed.

Lemma menu_ok_rename_category (user : User.t) (o n : string) :
  menu_ok user -> menu_ok (handle_rename_category user o n).
Proof.
  unfold handle_rename_category. intros Hok.
  destruct (mem o (User.categories user)) eqn:Eo; simpl; [|exact Hok].
  destruct (mem n (User.categories user)) eqn:En; [exact Hok|].
  apply mem_true_iff in Eo. apply mem_false_iff in En.
  destruct Hok as (Hc & Hi & Hb & Hl).
  destruct (list_replace_first o n _ Eo) as (l1 & l2 & Heq & Hnot & Hrep).
  unfold menu_ok, budget_categories in *. simpl.
  rewrite Hrep, rename_budget_categories. rewrite Heq in *.
  assert (Hnd12 : NoDup (l1 ++ l2)) by now apply NoDup_remove_1 in Hc.
  assert (Hn12 : ~ In n (l1 ++ l2)).
  { intros H. apply En. apply in_app_iff in H. apply in_app_iff.
    destruct H; [now left|right; now right]. }
  repeat split.
  - now apply NoDup_insert.
  - intros x Hx. apply in_map_iff in Hx. destruct Hx as [c [<- Hcin]].
    unfold renamed. destruct (String.eqb c o) eqn:E.
    + apply in_app_iff. right. now left.
    + apply String.eqb_neq in E. apply Hi in Hcin.
      apply in_app_iff in Hcin. apply in_app_iff.
      destruct Hcin as [H|[H|H]]; [now left|now symmetry in H|right; now right].
  - apply Injective_map_NoDup_in; [|exact Hb].
    intros x y Hx Hy. unfold renamed.
    destruct (String.eqb x o) eqn:Ex, (String.eqb y o) eqn:Ey; intros Hxy.
    + apply String.eqb_eq in Ex, Ey. congruence.
    + subst y. exfalso. apply En. now apply Hi.
    + subst x. exfalso. apply En. now apply Hi.
    + exact Hxy.
  - apply Forall_map. apply Forall_forall. intros b Hbin.
    rewrite Forall_forall in Hl. specialize (Hl b Hbin).
    now destruct (String.eqb (Budget.category b) o).
Qed.

Lemma menu_ok_delete_category (user : User.t) (c confirm : string) :
  menu_ok user -> menu_ok (handle_delete_category user c confirm).
Proof.
  unfold handle_delete_category. intros Hok.
  destruct (mem c (User.categories user)) eqn:Ec; simpl; [|exact Hok].
  destruct (confirmed confirm); simpl; [|exact Hok].
  apply mem_true_iff in Ec. destruct Hok as (Hc & Hi & Hb & Hl).
  destruct (list_remove_first c _ Ec) as (l1 & l2 & Heq & Hnot & Hrem).
  unfold menu_ok, budget_categories in *. simpl. rewrite Hrem.
  rewrite Heq in *. repeat split.
  - now apply NoDup_remove_1 in Hc.
  - intros x Hx. apply in_map_iff in Hx. destruct Hx as [b [<- Hbin]].
    apply filter_In in Hbin. destruct Hbin as [Hbin Hne].
    apply Bool.negb_true_iff, String.eqb_neq in Hne.
    assert (Hin : In (Budget.category b) (l1 ++ c :: l2))
      by (apply Hi; now apply in_map).
    apply in_app_iff in Hin. apply in_app_iff.
    destruct Hin as [H|[H|H]]; [now left|now symmetry in H|now right].
  - clear Hi Hl. induction (User.budgets user) as [|b bs IH]; simpl;
      [constructor|].
    inversion Hb as [|? ? Hnotin Hbs]; subst.
    destruct (negb (String.eqb (Budget.category b) c)); simpl; [|now apply IH].
    constructor; [|now apply IH].
    intros H. apply Hnotin. apply in_map_iff in H.
    destruct H as [b' [Hcat Hb']]. apply filter_In in Hb'.
    apply in_map_iff. exists b'. now split.
  - apply Forall_forall. intros b Hbin. apply filter_In in Hbin.
    rewrite Forall_forall in Hl. now apply Hl.
Qed.

Lemma menu_step_ok (st st' : User.t * audit_log) (o : menu_op) :
  menu_step st o = Some st' -> menu_ok (fst st) -> menu_ok (fst st').
Proof.
  destruct st as [user log]. destruct o; simpl; intros H Hok;
    try (injection H as <-; simpl).
  - destruct (handle_add_transaction timestamp today log user choice date
                amount category_choice add_to_categories description)
      as [[[u l] b]|e] eqn:E; [|discriminate].
    injection H as <-. simpl. now apply menu_ok_add_transaction in E.
  - now apply menu_ok_delete_transaction.
  - now apply menu_ok_add_savings_goal.
  - now apply menu_ok_add_funds.
  - now apply menu_ok_add_budget.
  - now apply menu_ok_delete_budget.
  - now apply menu_ok_add_category.
  - now apply menu_ok_rename_category.
  - now apply menu_ok_delete_category.
Qed.

Lemma new_user_menu_ok (username password : string) :
  menu_ok (User.init username password None None None).
Proof.
  unfold menu_ok, budget_categories. simpl.
  split; [|split; [intros x []|split; constructor]].
  unfold User.default_categories.
  repeat constructor; simpl; intuition discriminate.
Qed.

(** X13. Through the menus the category list never gets a repetition, no
    budget is for a category that is not listed, no category gets two
    budgets and no budget gets a limit [<= 0]: these four facts hold of a
    new account and are kept by every choice of the menus (adding a
    transaction, a goal, funds, a budget or a category, deleting a
    transaction, a budget or a category, renaming a category), whatever is
    typed. *)
Theorem menu_invariant (ops : list menu_op) (user : User.t) (log : audit_log) :
  menu_ok user -> menu_ok (fst (menu_run ops (user, log))).
Proof.
  revert user log. induction ops as [|o ops IH]; intros user log Hok;
    cbn [menu_run]; [exact Hok|].
  destruct (menu_step (user, log) o) as [[u l]|] eqn:E; [|exact Hok].
  apply IH. now apply (menu_step_ok (user, log) (u, l) o E).
Qed.

Lemma menu_invariant_witness :
  menu_ok fresh_user
  /\ budget_categories (fst (menu_run menu_example (fresh_user, [])))
     = ["Utilities"; "Pets"]
  /\ menu_ok (fst (menu_run menu_example (fresh_user, []))).
Proof.
  split; [exact (new_user_menu_ok "alice" "secret")|].
  split; [reflexivity|].
  exact (menu_invariant menu_example fresh_user []
           (new_user_menu_ok "alice" "secret")).
Defined.

(** ** Renaming a category *)

(** X14. Renaming a listed category to a name that is not listed puts the
    new name at the place of the old one in the category list and gives it
    to every transaction and budget that had the old one; afterwards no
    transaction or budget has the old name, and the rest of the user is
    untouched.  When the old name is not listed, or the new one is, nothing
    changes. *)
Theorem handle_rename_category_spec (user : User.t) (o n : string) :
  let user' := handle_rename_category user o n in
  (In o (User.categories user) -> ~ In n (User.categories user) ->
   (exists l1 l2,
       User.categories user = l1 ++ o :: l2
       /\ ~ In o l1
       /\ User.categories user' = l1 ++ n :: l2)
   /\ Forall2 (fun tr tr' =>
                 tr' = if String.eqb (Transaction.category tr) o
                       then Transaction.set_category tr n else tr)
        (User.transactions user) (User.transactions user')
   /\ Forall2 (fun b b' =>
                 b' = if String.eqb (Budget.category b) o
                      then Budget.set_category b n else b)
        (User.budgets user) (User.budgets user')
   /\ Forall (fun tr => Transaction.category tr <> o)
        (User.transactions user')
   /\ Forall (fun b => Budget.category b <> o) (User.budgets user')
   /\ User.savings_goals user' = User.savings_goals user
   /\ User.username user' = User.username user
   /\ User.password user' = User.password user)
  /\ (~ In o (User.categories user) \/ In n (User.categories user) ->
      user' = user).
Proof.
  intros user'. subst user'. unfold handle_rename_category. split.
  - intros Ho Hn.
    assert (Hne : n <> o) by (intros ->; contradiction).
    rewrite (proj2 (mem_true_iff _ _) Ho), (proj2 (mem_false_iff _ _) Hn).
    simpl.
    destruct (list_replace_first o n _ Ho) as (l1 & l2 & Heq & Hnot & Hrep).
    split; [now exists l1, l2|].
    split.
    { induction (User.transactions user); simpl; constructor; auto. }
    split.
    { induction (User.budgets user); simpl; constructor; auto. }
    split.
    { apply Forall_map. apply Forall_forall. intros tr _.
      destruct (String.eqb (Transaction.category tr) o) eqn:E; simpl;
        [exact Hne|now apply String.eqb_neq]. }
    split; [|now repeat split].
    apply Forall_map. apply Forall_forall. intros b _.
    destruct (String.eqb (Budget.category b) o) eqn:E; simpl;
      [exact Hne|now apply String.eqb_neq].
  - intros [Ho|Hn].
    + now rewrite (proj2 (mem_false_iff _ _) Ho).
    + rewrite (proj2 (mem_true_iff _ _) Hn).
      now destruct (mem o (User.categories user)).
Qed.

Lemma handle_rename_category_spec_witness :
  In "Bills" (User.categories rename_example)
  /\ ~ In "Utilities" (User.categories rename_example)
  /\ User.categories (handle_rename_category rename_example "Bills" "Utilities")
     = ["Groceries"; "Utilities"; "Entertainment"; "Transportation";
        "Housing"; "Other"]
  /\ Forall (fun tr => Transaction.category tr <> "Bills")
       (User.transactions
          (handle_rename_category rename_example "Bills" "Utilities"))
  /\ handle_rename_category rename_example "Bills" "Other" = rename_example.
Proof.
  assert (Ho : In "Bills" (User.categories rename_example))
    by (right; left; reflexivity).
  assert (Hn : ~ In "Utilities" (User.categories rename_example))
    by (simpl; intuition discriminate).
  assert (Ht : In "Other" (User.categories rename_example))
    by (simpl; intuition).
  split; [exact Ho|]. split; [exact Hn|]. split; [reflexivity|].
  destruct (proj1 (handle_rename_category_spec rename_example "Bills"
                     "Utilities") Ho Hn) as (_ & _ & _ & Hgone & _).
  split; [exact Hgone|].
  exact (proj2 (handle_rename_category_spec rename_example "Bills" "Other")
           (or_intror Ht)).
Defined.

(** ** Notifications and the statuses of "View Budgets" *)

Lemma notify_status_loop (E : list (string * pyfloat)) (bs : list Budget.t)
    (acc : list User.notification) :
  Forall (fun b => fle (Budget.limit b) zero = false) bs ->
  fold_left (User.notify E) bs acc
  = acc ++ flat_map (notification_of_status E) bs.
Proof.
  revert acc. induction bs as [|b bs IH]; intros acc Hl; simpl.
  - now rewrite app_nil_r.
  - inversion Hl as [|? ? Hb Hbs]; subst.
    rewrite IH by exact Hbs. rewrite app_assoc. f_equal.
    unfold User.notify, notification_of_status, budget_status.
    destruct (assoc (Budget.category b) E) as [s|].
    + destruct (fge s (Budget.limit b)); [reflexivity|].
      destruct (fge s _); [reflexivity|]. now rewrite app_nil_r.
    + destruct (limit_above_zero _ Hb) as [H1 H2].
      rewrite H1, H2. now rewrite app_nil_r.
Qed.

(** X15. When no budget has a limit [<= 0] (as the menus ensure), the
    notifications agree with the statuses that "View Budgets" shows: going
    through the budgets in order, a budget shown as EXCEEDED gets the alert,
    one shown as WARNING gets the warning, one shown as OK gets nothing,
    although the two places treat a category without expense
    differently (skipped by the notifications, spending 0 in the view). *)
Theorem notifications_match_statuses (user : User.t) :
  Forall (fun b => fle (Budget.limit b) zero = false) (User.budgets user) ->
  User.check_budget_notifications user
  = flat_map (notification_of_status (User.get_expenses_by_category user))
      (User.budgets user).
Proof.
  intros Hl. unfold User.check_budget_notifications.
  now rewrite notify_status_loop.
Qed.

Lemma notifications_match_statuses_witness :
  Forall (fun b => fle (Budget.limit b) zero = false)
         (User.budgets status_example)
  /\ map (budget_status (User.get_expenses_by_category status_example))
         (User.budgets status_example)
     = ["EXCEEDED"; "WARNING"]
  /\ User.check_budget_notifications status_example
     = flat_map
         (notification_of_status (User.get_expenses_by_category status_example))
         (User.budgets status_example).
Proof.
  assert (H : Forall (fun b => fle (Budget.limit b) zero = false)
                     (User.budgets status_example)).
  { apply Forall_forall. intros b Hb. vm_compute in Hb.
    destruct Hb as [<-|[<-|[]]]; vm_compute; reflexivity. }
  split; [exact H|]. split; [vm_compute; reflexivity|].
  exact (notifications_match_statuses status_example H).
Defined.

(** ** Dates written with dashes *)

Lemma digit_facts (c : ascii) :
  is_digit c = true ->
  is_space c = false /\ is_char c "_" = false /\ is_char c "-" = false
  /\ is_char c "+" = false /\ lower c = c
  /\ Ascii.eqb c "i" = false /\ Ascii.eqb c "n" = false.
Proof.
  destruct c as [[] [] [] [] [] [] [] []]; intros H; try discriminate H;
    repeat split; reflexivity.
Qed.

Lemma iso_date_shape (s : string) :
  is_iso_date s = true ->
  exists y1 y2 y3 y4 m1 m2 d1 d2,
    s = String y1 (String y2 (String y3 (String y4 (String "-"
          (String m1 (String m2 (String "-" (String d1 (String d2 "")))))))))
    /\ is_digit y1 = true /\ is_digit y2 = true /\ is_digit y3 = true
    /\ is_digit y4 = true /\ is_digit m1 = true /\ is_digit m2 = true
    /\ is_digit d1 = true /\ is_digit d2 = true.
Proof.
  unfold is_iso_date.
  destruct s as [|y1 [|y2 [|y3 [|y4 [|s1 [|m1 [|m2 [|s2 [|d1 [|d2 [|x s]]]]]]]]]]];
    simpl; try discriminate.
  intros H. apply andb_prop in H. destruct H as [H Hs2].
  apply andb_prop in H. destruct H as [H Hs1].
  repeat (apply andb_prop in H; let Hd := fresh "Hd" in destruct H as [Hd H]).
  apply Ascii.eqb_eq in Hs1, Hs2. subst s1 s2.
  exists y1, y2, y3, y4, m1, m2, d1, d2. repeat split; assumption.
Qed.

Lemma iso_date_is_no_float (date : string) :
  is_iso_date date = true -> float_of_string date = Raise ValueError.
Proof.
  intros H. apply iso_date_shape in H.
  destruct H as (y1 & y2 & y3 & y4 & m1 & m2 & d1 & d2 & -> & H1 & H2 & H3
                 & H4 & H5 & H6 & H7 & H8).
  destruct (digit_facts _ H1) as (S1 & U1 & M1 & P1 & L1 & I1 & N1).
  destruct (digit_facts _ H2) as (_ & U2 & _ & _ & _ & _ & _).
  destruct (digit_facts _ H3) as (_ & U3 & _ & _ & _ & _ & _).
  destruct (digit_facts _ H4) as (_ & U4 & _ & _ & _ & _ & _).
  destruct (digit_facts _ H5) as (_ & U5 & _ & _ & _ & _ & _).
  destruct (digit_facts _ H6) as (_ & U6 & _ & _ & _ & _ & _).
  destruct (digit_facts _ H7) as (_ & U7 & _ & _ & _ & _ & _).
  destruct (digit_facts _ H8) as (S8 & U8 & _ & _ & _ & _ & _).
  unfold float_of_string, strip. simpl. rewrite S1. simpl. rewrite S8. simpl.
  rewrite U1, U2, U3, U4, U5, U6, U7, U8. simpl.
  rewrite M1, P1.
  unfold decimal. simpl. rewrite H1, H2, H3, H4. simpl.
  unfold special. simpl. rewrite L1. simpl. rewrite I1, N1. reflexivity.
Qed.

(** X16. A date written as YYYY-MM-DD is not a number, so
    [add_transaction] turns down every call with such a date, whatever the
    amount: it returns [None], appends no transaction and writes no log
    line.  In [handle_add_transaction] this is the case whenever the date
    is left blank (today's date is then used): nothing is added or saved,
    and the user changes only by the category that was added to the list
    on the way. *)
Theorem iso_date_is_rejected (date : string) :
  is_iso_date date = true ->
  (forall ts log user a c ty de,
      User.add_transaction ts log user date a c ty de = Ok (None, user, log))
  /\ (forall ts log user ch a cc add de,
        exists user',
          handle_add_transaction ts date log user ch "" a cc add de
          = Ok (user', log, false)
          /\ User.transactions user' = User.transactions user
          /\ User.budgets user' = User.budgets user
          /\ User.savings_goals user' = User.savings_goals user).
Proof.
  intros H. apply iso_date_is_no_float in H.
  assert (Hadd : forall ts log user a c ty de,
    User.add_transaction ts log user date a c ty de = Ok (None, user, log)).
  { intros. unfold User.add_transaction, log_transaction, validate_amount.
    simpl. now rewrite H. }
  split; [exact Hadd|].
  intros ts log user ch a cc add de. unfold handle_add_transaction. simpl.
  destruct (String.eqb ch "1" || String.eqb ch "2");
    [|now exists user].
  destruct (mem (select_category (User.categories user) cc)
              (User.categories user)).
  - rewrite Hadd. simpl. now exists user.
  - destruct (confirmed add); rewrite Hadd; simpl; eexists;
      (split; [reflexivity|now repeat split]).
Qed.

Lemma iso_date_is_rejected_witness :
  is_iso_date "2024-03-01" = true
  /\ User.add_transaction "2024-03-01 08:00:00" [] fresh_user
       "2024-03-01" "12.50" "Bills" "expense" "water"
     = Ok (None, fresh_user, []).
Proof.
  split; [reflexivity|].
  exact (proj1 (iso_date_is_rejected "2024-03-01" eq_refl)
           "2024-03-01 08:00:00" [] fresh_user "12.50" "Bills" "expense"
           "water").
Defined.

(** ** Adding funds through the menu *)

Lemma add_funds_loop_cases (goals : list SavingsGoal.t) (i : Z)
    (amounts : nat -> string) (k : nat) :
  add_funds_loop goals i amounts k = goals
  \/ exists l1 g l2 a,
       goals = l1 ++ g :: l2
       /\ SavingsGoal.goal_id g = i
       /\ fle a zero = false
       /\ add_funds_loop goals i amounts k
          = l1 ++ SavingsGoal.set_current_amount g
                    (fadd (SavingsGoal.current_amount g) a) :: l2.
Proof.
  revert k. induction goals as [|g goals IH]; intros k; simpl; [now left|].
  destruct (SavingsGoal.goal_id g =? i) eqn:E.
  - apply Z.eqb_eq in E.
    destruct (float_of_string (amounts k)) as [a|]; [|now left].
    destruct (fle a zero) eqn:Ea.
    + destruct (IH (S k)) as [->|(l1 & g' & l2 & a' & -> & Hid & Ha & ->)];
        [now left|].
      right. now exists (g :: l1), g', l2, a'.
    + right. now exists [], g, goals, a.
  - destruct (IH k) as [->|(l1 & g' & l2 & a' & -> & Hid & Ha & ->)];
      [now left|].
    right. now exists (g :: l1), g', l2, a'.
Qed.

Lemma fadd_not_below (c : Q) (a : pyfloat) :
  fle a zero = false ->
  is_finite (fadd (Fin c) a) = true ->
  fle (Fin c) (fadd (Fin c) a) = true.
Proof.
  destruct a as [q| | |]; simpl; try discriminate.
  intros Hq _. apply Qle_bool_false in Hq. apply Qle_bool_iff.
  rewrite <- (Qplus_0_r c) at 1. apply Qplus_le_r. now apply Qlt_le_weak.
Qed.

(** X17. Adding funds through the menu changes at most one goal, one with
    the id that was typed, and only by adding to its current amount an
    amount that is not [<= 0]; the other goals, their order and the rest of
    the user stay.  So, as long as the amounts are finite, no current
    amount ever goes down this way. *)
Theorem handle_add_funds_spec (user : User.t) (goal_id : string)
    (amounts : nat -> string) :
  let user' := handle_add_funds user goal_id amounts in
  (user' = user
   \/ exists l1 g l2 a,
        User.savings_goals user = l1 ++ g :: l2
        /\ int_of_string goal_id = Ok (SavingsGoal.goal_id g)
        /\ fle a zero = false
        /\ user' = User.set_savings_goals user
                     (l1 ++ SavingsGoal.set_current_amount g
                              (fadd (SavingsGoal.current_amount g) a) :: l2))
  /\ Forall2
       (fun g g' =>
          is_finite (SavingsGoal.current_amount g) = true ->
          is_finite (SavingsGoal.current_amount g') = true ->
          fle (SavingsGoal.current_amount g) (SavingsGoal.current_amount g')
          = true)
       (User.savings_goals user) (User.savings_goals user').
Proof.
  intros user'. subst user'. unfold handle_add_funds.
  assert (Hrefl : forall l : list SavingsGoal.t,
    Forall2
      (fun g g' =>
         is_finite (SavingsGoal.current_amount g) = true ->
         is_finite (SavingsGoal.current_amount g') = true ->
         fle (SavingsGoal.current_amount g) (SavingsGoal.current_amount g')
         = true) l l).
  { induction l as [|g l IH]; constructor; [|exact IH].
    destruct (SavingsGoal.current_amount g) as [c| | |]; try discriminate.
    intros _ _. simpl. apply Qle_bool_iff. apply Qle_refl. }
  destruct (int_of_string goal_id) as [i|]; [|split; [now left|apply Hrefl]].
  destruct (add_funds_loop_cases (User.savings_goals user) i amounts 0)
    as [->|(l1 & g & l2 & a & Heq & Hid & Ha & ->)].
  - split; [left; now destruct user|apply Hrefl].
  - split.
    + right. exists l1, g, l2, a. rewrite Hid. now repeat split.
    + simpl. rewrite Heq. apply Forall2_app; [apply Hrefl|].
      constructor; [|apply Hrefl]. simpl.
      destruct (SavingsGoal.current_amount g) as [c| | |]; try discriminate.
      intros _. now apply fadd_not_below.
Qed.

Lemma handle_add_funds_example :
  User.savings_goals (handle_add_funds goals_example " 2 " (fun _ => "20.5"))
  = [ SavingsGoal.mk 1 "Car" (Fin 5000) (Fin 100);
      SavingsGoal.mk 2 "Trip" (Fin 1200) (Fin (0 + (41 # 2))) ]
  /\ handle_add_funds goals_example "2" answers_example = goals_example
  /\ handle_add_funds goals_example "two" answers_example = goals_example.
Proof. repeat split; reflexivity. Qed.

(** ** Choosing a category *)

(** X18. The text typed to choose a category stands for the category at
    that place when it reads as an integer from 1 to the number of
    categories, and for itself otherwise (not an integer, or out of range);
    so the choice is a listed category or the text as typed. *)
Theorem select_category_spec (categories : list string) (choice : string) :
  (forall n,
      int_of_string choice = Ok n ->
      1 <= n <= Z.of_nat (List.length categories) ->
      nth_error categories (Z.to_nat (n - 1))
      = Some (select_category categories choice))
  /\ (forall n,
        int_of_string choice = Ok n ->
        n < 1 \/ Z.of_nat (List.length categories) < n ->
        select_category categories choice = choice)
  /\ (forall e, int_of_string choice = Raise e ->
                select_category categories choice = choice)
  /\ (In (select_category categories choice) categories
      \/ select_category categories choice = choice).
Proof.
  unfold select_category. split; [|split; [|split]].
  - intros n -> Hn.
    assert (H0 : (0 <=? n - 1) = true) by (apply Z.leb_le; lia).
    assert (H1 : (n - 1 <? Z.of_nat (List.length categories)) = true)
      by (apply Z.ltb_lt; lia).
    rewrite H0, H1. simpl. apply nth_error_nth'. lia.
  - intros n -> [Hn|Hn].
    + assert (H0 : (0 <=? n - 1) = false) by (apply Z.leb_gt; lia).
      now rewrite H0.
    + assert (H1 : (n - 1 <? Z.of_nat (List.length categories)) = false)
        by (apply Z.ltb_ge; lia).
      rewrite H1. now rewrite Bool.andb_false_r.
  - now intros e ->.
  - destruct (int_of_string choice) as [n|]; [|now right].
    destruct ((0 <=? n - 1) && (n - 1 <? Z.of_nat (List.length categories)))
      eqn:E; [|now right].
    apply andb_prop in E. destruct E as [H0 H1].
    apply Z.leb_le in H0. apply Z.ltb_lt in H1.
    left. apply nth_In. lia.
Qed.

Lemma select_category_spec_witness :
  int_of_string " 3" = Ok 3
  /\ 1 <= 3 <= Z.of_nat (List.length User.default_categories)
  /\ select_category User.default_categories " 3" = "Entertainment"
  /\ select_category User.default_categories "7" = "7"
  /\ select_category User.default_categories "Bills" = "Bills".
Proof.
  assert (H : int_of_string " 3" = Ok 3) by reflexivity.
  assert (Hr : 1 <= 3 <= Z.of_nat (List.length User.default_categories))
    by (simpl; lia).
  assert (Hr7 : 7 < 1 \/ Z.of_nat (List.length User.default_categories) < 7)
    by (right; simpl; lia).
  destruct (select_category_spec User.default_categories " 3")
    as (Hin & _ & _ & _).
  destruct (select_category_spec User.default_categories "7")
    as (_ & Hout & _ & _).
  destruct (select_category_spec User.default_categories "Bills")
    as (_ & _ & Hname & _).
  split; [exact H|]. split; [exact Hr|].
  split.
  - exact (eq_sym
             (f_equal (fun o => match o with Some c => c | None => "" end)
                (Hin 3 H Hr))).
  - split; [exact (Hout 7 eq_refl Hr7)|exact (Hname ValueError eq_refl)].
Defined.

Lemma handle_add_funds_spec_witness :
  Forall2
    (fun g g' =>
       is_finite (SavingsGoal.current_amount g) = true ->
       is_finite (SavingsGoal.current_amount g') = true ->
       fle (SavingsGoal.current_amount g) (SavingsGoal.current_amount g')
       = true)
    (User.savings_goals goals_example)
    (User.savings_goals
       (handle_add_funds goals_example " 2 " (fun _ => "20.5"))).
Proof.
  exact (proj2 (handle_add_funds_spec goals_example " 2 " (fun _ => "20.5"))).
Defined.

(** ** When [add_transaction] accepts a call *)

(** X19. What decides the outcome of [add_transaction] is the date and
    whether the amount is a number, never the sign of the amount.  The call
    returns a transaction exactly when the date reads as a number that is
    not [<= 0] and the amount reads as a number, whatever number; the
    stored amount is then that number.  It returns [None] exactly when the
    date does not read as a number or reads as one [<= 0]; and it raises
    exactly when the date passes and the amount is not a number. *)
Theorem add_transaction_outcomes
    (ts : string) (log : audit_log) (user : User.t)
    (date amount category ty description : string) :
  let r := User.add_transaction ts log user date amount category ty
             description in
  ((exists tr user' log', r = Ok (Some tr, user', log')) <->
   (exists f x, float_of_string date = Ok f /\ fle f zero = false
                /\ float_of_string amount = Ok x))
  /\ (forall tr user' log',
        r = Ok (Some tr, user', log') ->
        float_of_string amount = Ok (Transaction.amount tr))
  /\ (r = Ok (None, user, log) <->
      (float_of_string date = Raise ValueError
       \/ exists f, float_of_string date = Ok f /\ fle f zero = true))
  /\ ((exists e, r = Raise e) <->
      (exists f, float_of_string date = Ok f /\ fle f zero = false
                 /\ float_of_string amount = Raise ValueError)).
Proof.
  intros r. subst r.
  assert (Hdate : forall e, float_of_string date = Raise e -> e = ValueError).
  { unfold float_of_string. intros e.
    destruct (drop_underscores None (strip (list_ascii_of_string date)));
      [|now intros [= <-]].
    destruct (take_sign l) as [sg body]. destruct (decimal body);
      [discriminate|]. destruct (special body); [discriminate|].
    now intros [= <-]. }
  assert (Hamount : forall e, float_of_string amount = Raise e -> e = ValueError).
  { unfold float_of_string. intros e.
    destruct (drop_underscores None (strip (list_ascii_of_string amount)));
      [|now intros [= <-]].
    destruct (take_sign l) as [sg body]. destruct (decimal body);
      [discriminate|]. destruct (special body); [discriminate|].
    now intros [= <-]. }
  unfold User.add_transaction, log_transaction, validate_amount,
    User.add_transaction_body, Transaction.init. simpl.
  destruct (float_of_string date) as [f|e] eqn:Ed.
  - destruct (fle f zero) eqn:Ef; simpl.
    + (* date <= 0 *)
      split; [|split; [|split]].
      * split; [intros (tr & u & l & H); discriminate|].
        intros (f' & x & [= <-] & Hf & _). congruence.
      * intros tr u l H. discriminate.
      * split; [intros _; right; now exists f|reflexivity].
      * split; [intros [e H]; discriminate|].
        intros (f' & [= <-] & Hf & _). congruence.
    + (* date passes *)
      destruct (float_of_string amount) as [x|e] eqn:Ea; simpl.
      * split; [|split; [|split]].
        -- split; [intros _; now exists f, x|]. intros _. eauto.
        -- intros tr u l [= <- _ _]. reflexivity.
        -- split; [discriminate|].
           intros [H|(f' & [= <-] & Hf)]; [discriminate|congruence].
        -- split; [intros [e H]; discriminate|].
           intros (f' & _ & _ & H). discriminate.
      * pose proof (Hamount e eq_refl) as ->.
        split; [|split; [|split]].
        -- split; [intros (tr & u & l & H); discriminate|].
           intros (f' & x & _ & _ & H). discriminate.
        -- intros tr u l H. discriminate.
        -- split; [discriminate|].
           intros [H|(f' & [= <-] & Hf)]; [discriminate|congruence].
        -- split; [intros _; now exists f|]. intros _. now exists ValueError.
  - pose proof (Hdate e eq_refl) as ->. simpl.
    split; [|split; [|split]].
    + split; [intros (tr & u & l & H); discriminate|].
      intros (f' & x & H & _). discriminate.
    + intros tr u l H. discriminate.
    + split; [intros _; now left|reflexivity].
    + split; [intros [e H]; discriminate|].
      intros (f' & H & _). discriminate.
Qed.

Lemma add_transaction_outcomes_witness :
  (exists tr user' log',
      User.add_transaction "2024-03-01 08:00:00" [] fresh_user
        "1e3" "-inf" "Bills" "expense" "" = Ok (Some tr, user', log'))
  /\ User.add_transaction "2024-03-01 08:00:00" [] fresh_user
       "-1" "50" "Bills" "expense" "" = Ok (None, fresh_user, []).
Proof.
  destruct (add_transaction_outcomes "2024-03-01 08:00:00" [] fresh_user
              "1e3" "-inf" "Bills" "expense" "") as (H1 & _).
  destruct (add_transaction_outcomes "2024-03-01 08:00:00" [] fresh_user
              "-1" "50" "Bills" "expense" "") as (_ & _ & H3 & _).
  split.
  - apply (proj2 H1). exists (Fin 1000), NegInf. repeat split; reflexivity.
  - apply (proj2 H3). right. exists (Fin (-1)). split; reflexivity.
Defined.

(** ** Adding a budget: what happens to the category list *)

(** X20. In "Add New Budget" an unknown category that the user agrees to
    add is appended to the category list before the limit is read, and it
    stays there when the limit is then refused (not a number, or [<= 0]) or
    the update of an existing budget is declined; a refused limit leaves
    the budgets as they were.  Transactions and savings goals are never
    touched. *)
Theorem handle_add_budget_categories
    (user : User.t) (cc add l up pe : string) :
  let selected := select_category (User.categories user) cc in
  let user' := handle_add_budget user cc add l up pe in
  User.categories user'
  = (if mem selected (User.categories user) then User.categories user
     else if confirmed add then User.categories user ++ [selected]
     else User.categories user)
  /\ (float_of_string l = Raise ValueError ->
      User.budgets user' = User.budgets user)
  /\ (forall f, float_of_string l = Ok f -> fle f zero = true ->
                User.budgets user' = User.budgets user)
  /\ User.transactions user' = User.transactions user
  /\ User.savings_goals user' = User.savings_goals user.
Proof.
  intros selected user'. subst selected user'. unfold handle_add_budget.
  set (sel := select_category (User.categories user) cc).
  destruct (mem sel (User.categories user)) eqn:E; simpl.
  - destruct (float_of_string l) as [f|e] eqn:El.
    + destruct (fle f zero) eqn:Ef.
      * repeat split; intros; discriminate.
      * destruct (has_budget sel (User.budgets user)).
        -- destruct (confirmed up); simpl; repeat split;
             try discriminate; intros f' [= <-] Hf'; congruence.
        -- unfold User.add_budget, Budget.init. simpl. repeat split;
             try discriminate; intros f' [= <-] Hf'; congruence.
    + repeat split; intros; discriminate.
  - destruct (confirmed add); simpl.
    + destruct (float_of_string l) as [f|e] eqn:El.
      * destruct (fle f zero) eqn:Ef.
        -- repeat split; intros; discriminate.
        -- destruct (has_budget sel (User.budgets user)).
           ++ destruct (confirmed up); simpl; repeat split;
                try discriminate; intros f' [= <-] Hf'; congruence.
           ++ unfold User.add_budget, Budget.init. simpl. repeat split;
                try discriminate; intros f' [= <-] Hf'; congruence.
      * repeat split; intros; discriminate.
    + repeat split.
Qed.

Lemma handle_add_budget_categories_witness :
  float_of_string "ten" = Raise ValueError
  /\ User.categories (handle_add_budget fresh_user "Pets" "y" "ten" "" "")
     = User.default_categories ++ ["Pets"]
  /\ User.budgets (handle_add_budget fresh_user "Pets" "y" "ten" "" "") = [].
Proof.
  assert (H : float_of_string "ten" = Raise ValueError) by reflexivity.
  destruct (handle_add_budget_categories fresh_user "Pets" "y" "ten" "" "")
    as (Hc & Hb & _).
  split; [exact H|]. split; [exact Hc|exact (Hb H)].
Defined.

(** ** Filtering by date *)

Lemma ascii_compare_digit_val (c d : ascii) :
  (c ?= d)%char = (digit_val c ?= digit_val d).
Proof.
  unfold Ascii.compare, digit_val, code, nat_of_ascii.
  rewrite !N_nat_Z, <- N2Z.inj_compare.
  destruct (Z.compare_spec (Z.of_N (N_of_ascii c)) (Z.of_N (N_of_ascii d)));
    symmetry; [apply Z.compare_eq_iff|apply Z.compare_lt_iff
              |apply Z.compare_gt_iff]; lia.
Qed.

Lemma digit_val_range (c : ascii) :
  is_digit c = true -> 0 <= digit_val c <= 9.
Proof.
  unfold is_digit, digit_val. intros H. apply andb_prop in H.
  destruct H as [H1 H2]. apply Nat.leb_le in H1, H2. lia.
Qed.

Lemma iso_date_leb (s t : string) :
  is_iso_date s = true -> is_iso_date t = true ->
  String.leb s t = (date_number s <=? date_number t).
Proof.
  intros Hs Ht. apply iso_date_shape in Hs, Ht.
  destruct Hs as (a1 & a2 & a3 & a4 & a5 & a6 & a7 & a8 & -> & A1 & A2 & A3
                  & A4 & A5 & A6 & A7 & A8).
  destruct Ht as (b1 & b2 & b3 & b4 & b5 & b6 & b7 & b8 & -> & B1 & B2 & B3
                  & B4 & B5 & B6 & B7 & B8).
  apply digit_val_range in A1, A2, A3, A4, A5, A6, A7, A8,
                           B1, B2, B3, B4, B5, B6, B7, B8.
  unfold String.leb, date_number. cbn [list_ascii_of_string fold_left].
  cbn [String.compare]. rewrite !ascii_compare_digit_val.
  change (digit_val "-" ?= digit_val "-") with Eq. cbv iota.
  repeat match goal with
    | |- context [?x ?= ?y] =>
        destruct (Z.compare_spec x y)
    end;
    symmetry; first [apply Z.leb_le; lia | apply Z.leb_gt; lia].
Qed.

(** X21. For dates written as YYYY-MM-DD the date filter is chronological:
    a transaction with such a date is listed for such a start and end date
    exactly when its date lies between them, both ends included, (the
    comparison of the texts, character by character, gives the order of
    the dates). *)
Theorem filter_by_date_is_chronological
    (user : User.t) (start_date end_date : string) (tr : Transaction.t) :
  is_iso_date start_date = true ->
  is_iso_date end_date = true ->
  is_iso_date (Transaction.date tr) = true ->
  (In tr (handle_filter_transactions user "1" start_date end_date) <->
   In tr (User.transactions user)
   /\ date_number start_date <= date_number (Transaction.date tr)
      <= date_number end_date).
Proof.
  intros Hs He Ht. unfold handle_filter_transactions. simpl.
  rewrite filter_In, Bool.andb_true_iff.
  rewrite (iso_date_leb _ _ Hs Ht), (iso_date_leb _ _ Ht He).
  rewrite !Z.leb_le. tauto.
Qed.

Lemma filter_by_date_is_chronological_witness :
  is_iso_date "2024-01-01" = true
  /\ is_iso_date "2024-01-31" = true
  /\ map Transaction.transaction_id
       (handle_filter_transactions dated_example "1" "2024-01-01" "2024-01-31")
     = [2]
  /\ In (Transaction.mk 2 "2024-01-15" (Fin 20) "Bills" "expense" "")
        (handle_filter_transactions dated_example "1" "2024-01-01"
           "2024-01-31").
Proof.
  split; [reflexivity|]. split; [reflexivity|]. split; [reflexivity|].
  apply (proj2 (filter_by_date_is_chronological dated_example
                  "2024-01-01" "2024-01-31"
                  (Transaction.mk 2 "2024-01-15" (Fin 20) "Bills" "expense" "")
                  eq_refl eq_refl eq_refl)).
  split; [right; left; reflexivity|]. vm_compute. split; discriminate.
Defined.
